(** * pdf_to_images.py: rendering the pages of a PDF to PNG files

    A shallow embedding of [scripts/pdf_to_images.py] and the proofs of the
    properties its specification states.

    The script is a thin wrapper around library calls ([os.makedirs],
    [fitz.open], [doc.load_page], [page.get_pixmap], [pix.save],
    [doc.close]).  The libraries are not part of the repository, so they
    are taken as a parameter (the class [Platform]); the script's own
    control flow, string formatting and result dictionaries are
    translated as they are written.

    Conventions of the model:
    - a Python [str] is a [string]; a character stands for a code point
      below 256;
    - a library call either returns or raises an exception derived from
      [Exception], of which the script only ever reads [str(e)];
      asynchronous interruptions of the interpreter are outside the model;
    - paths are POSIX paths ([os.path] is [posixpath]). *)

From Stdlib Require Import Ascii.
From stdpp Require Import gmap strings list pretty.

(** ** Python values and [json.dumps] *)

Module Py.

(** The values the script builds.  A [dict] keeps its insertion order,
    which is the order [json.dumps] prints, so it is an association
    list. *)
#[warnings="-register-all"]
Inductive value :=
| Bool (b : bool)
| Int (n : Z)
| Str (s : string)
| List (xs : list value)
| Dict (kvs : list (string * value)).

Abbreviation dict := (list (string * value)).

Definition keys (d : dict) : list string := d.*1.

(** [key in d] *)
Definition has_key (k : string) (d : dict) : bool :=
  bool_decide (k ∈ keys d).

(** [d[key]], [None] for the [KeyError]. *)
Fixpoint get (k : string) (d : dict) : option value :=
  match d with
  | [] => None
  | (k', v) :: d' => if decide (k = k') then Some v else get k d'
  end.

End Py.

Module Json.

Import Py.

Definition hex_digit (n : N) : ascii :=
  ascii_of_N (if (n <? 10)%N then 48 + n else 87 + n)%N.

(** ['\\u{0:04x}'.format(n)] for a code point below 256. *)
Definition u_escape (c : ascii) : string :=
  let n := N_of_ascii c in
  String "\" (String "u" (String "0" (String "0"
    (String (hex_digit (n / 16)) (String (hex_digit (n mod 16)) ""))))).

(** One character of [json.encoder.py_encode_basestring_ascii]: the
    quote, the backslash and the five short escapes, a [\uXXXX] escape
    for every other character outside [' '..'~'], the character itself
    otherwise. *)
Definition escape_char (c : ascii) : string :=
  let n := N_of_ascii c in
  if ((n =? 34) || (n =? 92))%N then String "\" (String c "")
  else if (n =? 10)%N then String "\" "n"
  else if (n =? 13)%N then String "\" "r"
  else if (n =? 9)%N then String "\" "t"
  else if (n =? 8)%N then String "\" "b"
  else if (n =? 12)%N then String "\" "f"
  else if ((n <? 32) || (126 <? n))%N then u_escape c
  else String c "".

Fixpoint escape (s : string) : string :=
  match s with
  | EmptyString => EmptyString
  | String c s' => escape_char c +:+ escape s'
  end.

Definition dquote : ascii := "034"%char.

Definition quote (s : string) : string :=
  String dquote (escape s +:+ String dquote "").

(** [', '.join(items)] *)
Fixpoint join_items (items : list string) : string :=
  match items with
  | [] => ""
  | [x] => x
  | x :: rest => x +:+ ", " +:+ join_items rest
  end.

(** [json.dumps(v)] with the default options ([ensure_ascii=True],
    separators [', '] and [': ']). *)
Fixpoint dumps (v : value) : string :=
  match v with
  | Bool true => "true"
  | Bool false => "false"
  | Int n => pretty n
  | Str s => quote s
  | List xs => "[" +:+ join_items (map dumps xs) +:+ "]"
  | Dict kvs =>
      "{" +:+ join_items
                (map (fun kv => quote kv.1 +:+ ": " +:+ dumps kv.2) kvs)
          +:+ "}"
  end.

End Json.

(** ** [os.path.join] and the page file names *)

Module Path.

Definition sep : ascii := "/"%char.

(** [s.startswith('/')] *)
Definition startswith_sep (s : string) : bool :=
  match s with
  | String c _ => bool_decide (c = sep)
  | EmptyString => false
  end.

(** [s.endswith('/')] *)
Fixpoint endswith_sep (s : string) : bool :=
  match s with
  | EmptyString => false
  | String c EmptyString => bool_decide (c = sep)
  | String _ s' => endswith_sep s'
  end.

Definition is_empty (s : string) : bool :=
  match s with EmptyString => true | _ => false end.

(** [posixpath.join(a, b)]: an absolute [b] replaces [a]; otherwise [b]
    is appended, after a separator unless [a] is empty or already ends
    with one. *)
Definition join (a b : string) : string :=
  if startswith_sep b then b
  else if is_empty a || endswith_sep a then a +:+ b
  else a +:+ String sep b.

End Path.

(** [f"page-{n}.png"] *)
Definition page_name (n : nat) : string :=
  "page-" +:+ pretty n +:+ ".png".

(** [os.path.join(output_dir, f"page-{page_num + 1}.png")] *)
Definition image_path_of (output_dir : string) (page_num : nat) : string :=
  Path.join output_dir (page_name (page_num + 1)).

(** ** The libraries, as far as the script uses them *)

(** What a call does: it returns a value or raises; [Raise msg] carries
    [str(e)] of the exception. *)
Inductive outcome (A : Type) :=
| Return (a : A)
| Raise (msg : string).

Arguments Return {A} a.
Arguments Raise {A} msg.

(** [fitz.Matrix]: the six coefficients [a b c d e f] of the transform
    [(x, y) -> (a*x + c*y + e, b*x + d*y + f)]. *)
Record Matrix := {
  m_a : Z; m_b : Z; m_c : Z; m_d : Z; m_e : Z; m_f : Z
}.

(** [fitz.Matrix(zoom_x, zoom_y)]: the scaling by [zoom_x] and [zoom_y]. *)
Definition fitz_Matrix (zoom_x zoom_y : Z) : Matrix :=
  {| m_a := zoom_x; m_b := 0; m_c := 0; m_d := zoom_y; m_e := 0; m_f := 0 |}.

(** What a path names on the file system. *)
Inductive node :=
| File (data : string)
| Dir
| Special.

Definition is_regular (nd : node) : bool :=
  match nd with File _ => true | _ => false end.

(** The operating system and PyMuPDF.  Every call takes the world it
    runs in and gives the world it leaves, also when it raises. [fs]
    and [is_closed] observe the world: what each path names, and whether
    a document handle has been closed. *)
Class Platform := {
  World : Type;
  Document : Type;
  Page : Type;
  Pixmap : Type;
  fs : World → gmap string node;
  is_closed : Document → World → bool;
  png_bytes : Pixmap → string;
  (** [os.makedirs(dir, exist_ok=True)] *)
  os_makedirs : string → World → outcome unit * World;
  (** [fitz.open(path)] *)
  fitz_open : string → World → outcome Document * World;
  (** [len(doc)] *)
  doc_len : Document → World → outcome nat;
  (** [doc.load_page(page_num)] *)
  doc_load_page : Document → nat → World → outcome Page * World;
  (** [page.get_pixmap(matrix=mat)] *)
  page_get_pixmap : Page → Matrix → World → outcome Pixmap * World;
  (** [pix.save(path)] *)
  pix_save : Pixmap → string → World → outcome unit * World;
  (** [doc.close()] *)
  doc_close : Document → World → outcome unit * World;
}.

(** What the libraries promise about files: loading and rendering a page
    and closing a document write nothing; [pix.save(path)] writes the
    PNG encoding of the pixmap to [path] when it returns, and touches no
    other path whether it returns or raises. *)
Class FileLaws (P : Platform) : Prop := {
  load_page_fs d n w : fs (doc_load_page d n w).2 = fs w;
  get_pixmap_fs pg m w : fs (page_get_pixmap pg m w).2 = fs w;
  close_fs d w : fs (doc_close d w).2 = fs w;
  save_written pix p w w' :
    pix_save pix p w = (Return (), w') →
    fs w' !! p = Some (File (png_bytes pix));
  save_frame pix p w p' :
    p' ≠ p → fs (pix_save pix p w).2 !! p' = fs w !! p';
}.

(** What PyMuPDF promises about handles: [fitz.open] returns an open
    handle, only [doc.close()] closes one, and closing an open handle
    succeeds. *)
Class HandleLaws (P : Platform) : Prop := {
  open_not_closed p w d w' :
    fitz_open p w = (Return d, w') → is_closed d w' = false;
  load_page_closed d d' n w :
    is_closed d (doc_load_page d' n w).2 = is_closed d w;
  get_pixmap_closed d pg m w :
    is_closed d (page_get_pixmap pg m w).2 = is_closed d w;
  save_closed d pix p w :
    is_closed d (pix_save pix p w).2 = is_closed d w;
  close_open d w :
    is_closed d w = false →
    ∃ w', doc_close d w = (Return (), w') ∧ is_closed d w' = true;
}.

(** What the libraries promise about the calls before the pages:
    creating directories leaves every regular file as it is, and opening
    a document writes nothing. *)
Class PreludeLaws (P : Platform) : Prop := {
  makedirs_keeps_files dir w p data :
    fs w !! p = Some (File data) →
    fs (os_makedirs dir w).2 !! p = Some (File data);
  open_fs p w : fs (fitz_open p w).2 = fs w;
}.

(** The same promises when a file can have more than one path (other
    spellings of the path, links): [same_file] relates the paths that
    name one file, and [pix.save(path)] leaves alone the paths that do
    not name the file of [path]. *)
Class ResolvedLaws (P : Platform) (same_file : string → string → Prop)
    : Prop := {
  resolved_makedirs dir w p data :
    fs w !! p = Some (File data) →
    fs (os_makedirs dir w).2 !! p = Some (File data);
  resolved_open p w : fs (fitz_open p w).2 = fs w;
  resolved_load_page d n w : fs (doc_load_page d n w).2 = fs w;
  resolved_get_pixmap pg m w : fs (page_get_pixmap pg m w).2 = fs w;
  resolved_close d w : fs (doc_close d w).2 = fs w;
  resolved_save pix p w p' :
    ¬ same_file p' p → fs (pix_save pix p w).2 !! p' = fs w !! p';
}.

(** ** The script *)

Section Script.

Context {P : Platform}.

(** The library calls of a run, each with what it gave. *)
Inductive event :=
| EvMakedirs (dir : string) (r : outcome unit)
| EvOpen (path : string) (r : outcome Document)
| EvLen (doc : Document) (r : outcome nat)
| EvLoadPage (doc : Document) (page_num : nat) (r : outcome Page)
| EvGetPixmap (page : Page) (mat : Matrix) (r : outcome Pixmap)
| EvSave (pix : Pixmap) (path : string) (r : outcome unit)
| EvClose (doc : Document) (r : outcome unit).

Definition raised_of {A} (r : outcome A) : option string :=
  match r with Return _ => None | Raise msg => Some msg end.

(** The message of the exception the call raised, if it raised. *)
Definition raised (ev : event) : option string :=
  match ev with
  | EvMakedirs _ r => raised_of r
  | EvOpen _ r => raised_of r
  | EvLen _ r => raised_of r
  | EvLoadPage _ _ r => raised_of r
  | EvGetPixmap _ _ r => raised_of r
  | EvSave _ _ r => raised_of r
  | EvClose _ r => raised_of r
  end.

Definition is_close (ev : event) : bool :=
  match ev with EvClose _ _ => true | _ => false end.

(** The calls of the loop's body. *)
Definition is_page_event (ev : event) : bool :=
  match ev with
  | EvLoadPage _ _ _ | EvGetPixmap _ _ _ | EvSave _ _ _ => true
  | _ => false
  end.

(** How many times [doc.close()] was called. *)
Definition close_count (t : list event) : nat :=
  length (filter (λ ev, is_close ev = true) t).

(** The path a [pix.save] wrote, when the call is one that returned. *)
Definition saved_path (ev : event) : option string :=
  match ev with EvSave _ path (Return _) => Some path | _ => None end.

(** The paths written, in the order they were. *)
Definition saved (t : list event) : list string :=
  omap saved_path t.

(** The transform a rendering call was given. *)
Definition render_matrix (ev : event) : option Matrix :=
  match ev with EvGetPixmap _ mat _ => Some mat | _ => None end.

(** The transforms of the rendering calls, in order. *)
Definition transforms (t : list event) : list Matrix :=
  omap render_matrix t.

(** The handle and the index of a [doc.load_page] call. *)
Definition load_of (ev : event) : option (Document * nat) :=
  match ev with EvLoadPage doc page_num _ => Some (doc, page_num) | _ => None end.

(** The pages a run asked for, in order. *)
Definition loaded (t : list event) : list (Document * nat) :=
  omap load_of t.

Definition is_makedirs (ev : event) : bool :=
  match ev with EvMakedirs _ _ => true | _ => false end.

Definition is_open (ev : event) : bool :=
  match ev with EvOpen _ _ => true | _ => false end.

(** The page a [doc.load_page] call returned. *)
Definition page_of (ev : event) : option Page :=
  match ev with EvLoadPage _ _ (Return page) => Some page | _ => None end.

(** The pages the run was given, in order. *)
Definition pages_returned (t : list event) : list Page :=
  omap page_of t.

(** The page and the transform of a rendering call. *)
Definition render_of (ev : event) : option (Page * Matrix) :=
  match ev with EvGetPixmap page mat _ => Some (page, mat) | _ => None end.

(** The rendering calls of a run, in order. *)
Definition rendered (t : list event) : list (Page * Matrix) :=
  omap render_of t.

(** No call raised. *)
Definition quiet (t : list event) : Prop :=
  Forall (λ ev, raised ev = None) t.

(** The last call raised, with [msg], and no call before it did. *)
Definition aborted (msg : string) (t : list event) : Prop :=
  ∃ t0 ev, t = t0 ++ [ev] ∧ quiet t0 ∧ raised ev = Some msg.

(** A run of a piece of the script: what it gave, the world it left and
    the library calls it made, in order. *)
Record run (A : Type) := Run {
  result : outcome A;
  final : World;
  trace : list event
}.

Arguments Run {A} result final trace.
Arguments result {A} r.
Arguments final {A} r.
Arguments trace {A} r.

(** A piece of the script is faithful when its result tells what its
    trace shows: it returns after calls that all returned, and it raises
    the exception of its last call, the only one that raised. *)
Definition faithful {A} (r : run A) : Prop :=
  match result r with
  | Return _ => quiet (trace r)
  | Raise msg => aborted msg (trace r)
  end.

Definition M (A : Type) : Type := World → run A.

#[global] Instance M_ret : MRet M := λ A a w, Run (Return a) w [].

(** Sequencing: an exception skips the rest. *)
#[global] Instance M_bind : MBind M := λ A B f m w,
  let r1 := m w in
  match result r1 with
  | Return a =>
      let r2 := f a (final r1) in
      Run (result r2) (final r2) (trace r1 ++ trace r2)
  | Raise msg => Run (Raise msg) (final r1) (trace r1)
  end.

(** [try: body  except Exception as e: handler(str(e))] *)
Definition try_except {A} (body : M A) (handler : string → M A) : M A :=
  λ w,
  let r1 := body w in
  match result r1 with
  | Return a => r1
  | Raise msg =>
      let r2 := handler msg (final r1) in
      Run (result r2) (final r2) (trace r1 ++ trace r2)
  end.

(** A library call, recorded in the trace. *)
Definition call {A} (op : World → outcome A * World)
    (ev : outcome A → event) : M A :=
  λ w, let r := op w in Run r.1 r.2 [ev r.1].

(** [for x in xs: acc = body(x, acc)] *)
Fixpoint for_each {A S} (xs : list A) (body : A → S → M S) (acc : S) : M S :=
  match xs with
  | [] => mret acc
  | x :: xs' => acc' ← body x acc; for_each xs' body acc'
  end.

(** The body of the loop: one page rendered and saved, its path
    appended to [image_paths]. *)
Definition render_page (doc : Document) (output_dir : string)
    (page_num : nat) (image_paths : list string) : M (list string) :=
  page ← call (doc_load_page doc page_num) (EvLoadPage doc page_num);
  let mat := fitz_Matrix 2 2 in
  pix ← call (page_get_pixmap page mat) (EvGetPixmap page mat);
  let image_path := image_path_of output_dir page_num in
  _ ← call (pix_save pix image_path) (EvSave pix image_path);
  mret (image_paths ++ [image_path]).

Definition success_dict (image_paths : list string) : Py.dict :=
  [("success", Py.Bool true);
   ("pages", Py.Int (Z.of_nat (length image_paths)));
   ("image_paths", Py.List (Py.Str <$> image_paths))].

Definition failure_dict (error : string) : Py.dict :=
  [("success", Py.Bool false); ("error", Py.Str error)].

Definition pdf_to_images (pdf_path output_dir : string) : M Py.dict :=
  try_except
    (_ ← call (os_makedirs output_dir) (EvMakedirs output_dir);
     doc ← call (fitz_open pdf_path) (EvOpen pdf_path);
     n ← call (λ w, (doc_len doc w, w)) (EvLen doc);
     image_paths ← for_each (seq 0 n) (render_page doc output_dir) [];
     _ ← call (doc_close doc) (EvClose doc);
     mret (success_dict image_paths))
    (λ e, mret (failure_dict e)).

(** [os.path.exists(path)]: the path names something, a file or not. *)
Definition os_path_exists (path : string) (w : World) : bool :=
  bool_decide (is_Some (fs w !! path)).

(** What a run of the program leaves: the lines printed to standard
    output, the exit status, and the run of [pdf_to_images] when it was
    called. *)
Record process := Process {
  stdout : list string;
  exit_status : Z;
  conversion : option (run Py.dict)
}.

Definition usage : string :=
  "Usage: python pdf_to_images.py <pdf_path> <output_dir>".

(** [main()], with [sys.argv] and the world as arguments.  The first
    branch is [len(sys.argv) == 3]; [sys.exit(1)] ends the process with
    status 1, and reaching the end of [main] ends it with status 0. *)
Definition main (argv : list string) (w : World) : process :=
  match argv with
  | [_; pdf_path; output_dir] =>
      if negb (os_path_exists pdf_path w) then
        Process
          [Json.dumps (Py.Dict (failure_dict ("PDF file not found: " +:+ pdf_path)))]
          1 None
      else
        let r := pdf_to_images pdf_path output_dir w in
        match result r with
        | Return d => Process [Json.dumps (Py.Dict d)] 0 (Some r)
        | Raise _ => Process [] 1 (Some r)
        end
  | _ => Process [Json.dumps (Py.Dict (failure_dict usage))] 1 None
  end.

End Script.

Arguments Run {P A} result final trace.
Arguments result {P A} r.
Arguments final {P A} r.
Arguments trace {P A} r.
Arguments Process {P} stdout exit_status conversion.

(** ** A small platform to run the script on

    Files in a finite map; a PDF is a file that starts with [%PDF], with
    one page per character after it; the page [!] does not render; a
    pixmap is the page's character and the two zoom factors it was
    rendered with. *)

Module Sim.

Record world := MkWorld {
  files : gmap string node;
  closed : gset nat
}.

Record document := MkDocument {
  doc_id : nat;
  doc_pages : list ascii
}.

Record pixmap := MkPixmap {
  pix_page : ascii;
  pix_zoom_x : Z;
  pix_zoom_y : Z
}.

Definition parse_pdf (data : string) : option (list ascii) :=
  match data with
  | String "%" (String "P" (String "D" (String "F" pages))) =>
      Some (String.list_ascii_of_string pages)
  | _ => None
  end.

Definition png (pix : pixmap) : string :=
  "PNG" +:+ String (pix_page pix)
    (pretty (pix_zoom_x pix) +:+ "x" +:+ pretty (pix_zoom_y pix)).

Definition closed_doc (d : document) (w : world) : bool :=
  bool_decide (doc_id d ∈ closed w).

Definition makedirs (dir : string) (w : world) : outcome unit * world :=
  match files w !! dir with
  | Some (File _) | Some Special =>
      (Raise ("[Errno 17] File exists: '" +:+ dir +:+ "'"), w)
  | _ => (Return (), MkWorld (<[dir := Dir]> (files w)) (closed w))
  end.

Definition open (path : string) (w : world) : outcome document * world :=
  match files w !! path with
  | None => (Raise ("no such file: '" +:+ path +:+ "'"), w)
  | Some (File data) =>
      match parse_pdf data with
      | Some pages => (Return (MkDocument (fresh (closed w)) pages), w)
      | None => (Raise ("Failed to open file '" +:+ path +:+ "'."), w)
      end
  | Some _ => (Raise ("'" +:+ path +:+ "' is no file"), w)
  end.

Definition len (d : document) (w : world) : outcome nat :=
  if closed_doc d w then Raise "document closed"
  else Return (length (doc_pages d)).

Definition load_page (d : document) (n : nat) (w : world)
    : outcome ascii * world :=
  if closed_doc d w then (Raise "document closed", w)
  else match doc_pages d !! n with
       | Some pg => (Return pg, w)
       | None => (Raise "page not in document", w)
       end.

Definition get_pixmap (pg : ascii) (m : Matrix) (w : world)
    : outcome pixmap * world :=
  if bool_decide (pg = "!"%char) then (Raise "cannot render page", w)
  else (Return (MkPixmap pg (m_a m) (m_d m)), w).

Definition save (pix : pixmap) (path : string) (w : world)
    : outcome unit * world :=
  match files w !! path with
  | Some Dir | Some Special =>
      (Raise ("cannot open file '" +:+ path +:+ "' for writing"), w)
  | _ => (Return (), MkWorld (<[path := File (png pix)]> (files w)) (closed w))
  end.

Definition close (d : document) (w : world) : outcome unit * world :=
  if closed_doc d w then (Raise "document closed", w)
  else (Return (), MkWorld (files w) ({[doc_id d]} ∪ closed w)).

Definition platform : Platform := {|
  World := world;
  Document := document;
  Page := ascii;
  Pixmap := pixmap;
  fs := files;
  is_closed := closed_doc;
  png_bytes := png;
  os_makedirs := makedirs;
  fitz_open := open;
  doc_len := len;
  doc_load_page := load_page;
  page_get_pixmap := get_pixmap;
  pix_save := save;
  doc_close := close
|}.

(** A disk with a three-page document, a document whose second page
    does not render, a file that is no PDF, and a directory. *)
Definition disk : world :=
  MkWorld (<["in/ok.pdf" := File "%PDFabc"]>
         (<["in/bad.pdf" := File "%PDFa!c"]>
         (<["in/notes.txt" := File "hello"]>
         (<["in" := Dir]> ∅)))) ∅.

(** Runs on that disk: of the three-page document, and of the document
    whose second page does not render. *)
Definition run_ok : run Py.dict :=
  pdf_to_images (P := platform) "in/ok.pdf" "out" disk.

Definition run_bad : run Py.dict :=
  pdf_to_images (P := platform) "in/bad.pdf" "out" disk.

Definition ok_result : Py.dict :=
  [("success", Py.Bool true);
   ("pages", Py.Int 3);
   ("image_paths",
    Py.List [Py.Str "out/page-1.png"; Py.Str "out/page-2.png";
             Py.Str "out/page-3.png"])].

(** The call of [run_bad] that raises. *)
Definition failed_render : event (P := platform) :=
  EvGetPixmap (P := platform) "!"%char (fitz_Matrix 2 2)
    (Raise "cannot render page").

(** A disk with a document of no pages, one with a document of two
    pages, and the disk after an earlier run over a document of five
    pages left its last file. *)
Definition disk_empty : world :=
  MkWorld (<["in/empty.pdf" := File "%PDF"]> (files disk)) ∅.


Definition disk_two : world :=
  MkWorld (<["in/two.pdf" := File "%PDFxy"]> (files disk)) ∅.

Definition run_two : run Py.dict :=
  pdf_to_images (P := platform) "in/two.pdf" "out" disk_two.

Definition run_empty : run Py.dict :=
  pdf_to_images (P := platform) "in/empty.pdf" "out" disk_empty.


End Sim.

(** ** Strings and paths *)

Lemma append_cons (c : ascii) (s t : string) :
  String c s +:+ t = String c (s +:+ t).
Proof. reflexivity. Qed.

Lemma length_append (s t : string) :
  String.length (s +:+ t) = (String.length s + String.length t)%nat.
Proof.
  induction s as [|c s IH]; [done |].
  rewrite append_cons. simpl. by rewrite IH.
Qed.

(** Appending the same suffix is injective. *)
Lemma append_inj_r (t s1 s2 : string) : s1 +:+ t = s2 +:+ t → s1 = s2.
Proof.
  revert s2. induction s1 as [|c s1 IH]; intros [|c' s2] Heq.
  - done.
  - apply (f_equal String.length) in Heq.
    rewrite !length_append in Heq. simpl in Heq. lia.
  - apply (f_equal String.length) in Heq.
    rewrite !length_append in Heq. simpl in Heq. lia.
  - rewrite !append_cons in Heq. injection Heq as -> Heq.
    f_equal. by apply IH.
Qed.

Lemma page_name_inj (n m : nat) : page_name n = page_name m → n = m.
Proof.
  unfold page_name. intros Heq.
  apply String.app_inj in Heq. apply append_inj_r in Heq.
  by apply pretty_nat_inj in Heq.
Qed.

Lemma page_name_relative (n : nat) : Path.startswith_sep (page_name n) = false.
Proof. reflexivity. Qed.

(** In one directory, different names give different paths. *)
Lemma join_inj (dir b1 b2 : string) :
  Path.startswith_sep b1 = false → Path.startswith_sep b2 = false →
  Path.join dir b1 = Path.join dir b2 → b1 = b2.
Proof.
  unfold Path.join. intros -> ->.
  destruct (Path.is_empty dir || Path.endswith_sep dir); intros Heq.
  - by apply String.app_inj in Heq.
  - apply String.app_inj in Heq. by injection Heq.
Qed.

Lemma image_path_of_inj (dir : string) (i j : nat) :
  image_path_of dir i = image_path_of dir j → i = j.
Proof.
  unfold image_path_of. intros Heq.
  apply join_inj in Heq; [| apply page_name_relative ..].
  apply page_name_inj in Heq. lia.
Qed.

(** The path of a page is the directory, a separator unless the
    directory is empty or ends with one, and the page's file name. *)
Lemma image_path_of_spec (dir : string) (i : nat) :
  image_path_of dir i
  = if Path.is_empty dir || Path.endswith_sep dir
    then dir +:+ page_name (i + 1)
    else dir +:+ "/" +:+ page_name (i + 1).
Proof. reflexivity. Qed.

(** ** Runs of the script's building blocks *)

Section Runs.

Context {P : Platform}.

Lemma bind_run {A B} (m : M A) (f : A → M B) (w : World) :
  (m ≫= f) w
  = match result (m w) with
    | Return a =>
        Run (result (f a (final (m w)))) (final (f a (final (m w))))
            (trace (m w) ++ trace (f a (final (m w))))
    | Raise msg => Run (Raise msg) (final (m w)) (trace (m w))
    end.
Proof. reflexivity. Qed.

Lemma call_run {A} (op : World → outcome A * World) (ev : outcome A → event)
    (w : World) :
  call op ev w = Run (op w).1 (op w).2 [ev (op w).1].
Proof. reflexivity. Qed.

Lemma for_each_cons {A S} (x : A) (xs : list A) (body : A → S → M S)
    (acc : S) (w : World) :
  for_each (x :: xs) body acc w
  = (body x acc ≫= for_each xs body) w.
Proof. reflexivity. Qed.

Lemma aborted_app (msg : string) (t1 t2 : list event) :
  quiet t1 → aborted msg t2 → aborted msg (t1 ++ t2).
Proof.
  intros Hq (t0 & ev & -> & Hq0 & Hev).
  exists (t1 ++ t0), ev. rewrite app_assoc. split_and!; [done | | done].
  by apply Forall_app.
Qed.

Lemma faithful_ret {A} (a : A) (w : World) : faithful (mret (M:=M) a w).
Proof. constructor. Qed.

Lemma faithful_call {A} (op : World → outcome A * World)
    (ev : outcome A → event) (w : World) :
  (∀ r, raised (ev r) = raised_of r) → faithful (call op ev w).
Proof.
  intros Hev. rewrite call_run. unfold faithful. simpl.
  destruct (op w).1 as [a | msg] eqn:E.
  - apply Forall_singleton. by rewrite Hev.
  - exists [], (ev (Raise msg)). split_and!; [done | constructor |].
    by rewrite Hev.
Qed.

Lemma faithful_bind {A B} (m : M A) (f : A → M B) (w : World) :
  faithful (m w) → (∀ a w', faithful (f a w')) → faithful ((m ≫= f) w).
Proof.
  intros Hm Hf. rewrite bind_run. unfold faithful in *.
  destruct (result (m w)) as [a | msg]; simpl; [| done].
  specialize (Hf a (final (m w))).
  destruct (result (f a (final (m w)))) as [b | msg].
  - by apply Forall_app.
  - by apply aborted_app.
Qed.

Lemma faithful_for_each {A S} (xs : list A) (body : A → S → M S)
    (acc : S) (w : World) :
  (∀ x acc' w', faithful (body x acc' w')) →
  faithful (for_each xs body acc w).
Proof.
  intros Hbody. revert acc w.
  induction xs as [| x xs IH]; intros acc w.
  - apply faithful_ret.
  - rewrite for_each_cons. apply faithful_bind; auto.
Qed.

(** A property of every call is a property of every call of a sequence,
    and of a loop. *)
Lemma trace_bind_Forall {A B} (Q : event → Prop) (m : M A) (f : A → M B)
    (w : World) :
  Forall Q (trace (m w)) → (∀ a w', Forall Q (trace (f a w'))) →
  Forall Q (trace ((m ≫= f) w)).
Proof.
  intros Hm Hf. rewrite bind_run.
  destruct (result (m w)); simpl; [| done].
  apply Forall_app. auto.
Qed.

Lemma trace_for_each_Forall {A S} (Q : event → Prop) (xs : list A)
    (body : A → S → M S) (acc : S) (w : World) :
  (∀ x acc' w', Forall Q (trace (body x acc' w'))) →
  Forall Q (trace (for_each xs body acc w)).
Proof.
  intros Hbody. revert acc w.
  induction xs as [| x xs IH]; intros acc w.
  - constructor.
  - rewrite for_each_cons. apply trace_bind_Forall; auto.
Qed.

(** A relation between the world before and the world after that every
    step keeps, when it is a preorder, is kept by a sequence and by a
    loop. *)
Lemma final_bind {A B} (R : relation World) `{!PreOrder R} (m : M A)
    (f : A → M B) (w : World) :
  R w (final (m w)) → (∀ a w', R w' (final (f a w'))) →
  R w (final ((m ≫= f) w)).
Proof.
  intros Hm Hf. rewrite bind_run.
  destruct (result (m w)); simpl; [| done].
  etrans; [exact Hm | apply Hf].
Qed.

Lemma final_for_each {A S} (R : relation World) `{!PreOrder R}
    (xs : list A) (body : A → S → M S) (acc : S) (w : World) :
  (∀ x acc' w', R w' (final (body x acc' w'))) →
  R w (final (for_each xs body acc w)).
Proof.
  intros Hbody. revert acc w.
  induction xs as [| x xs IH]; intros acc w.
  - simpl. reflexivity.
  - rewrite for_each_cons. apply final_bind; auto.
Qed.

End Runs.

(** ** Runs of the loop *)

Section Loop.

Context {P : Platform}.

Implicit Types (doc : Document) (dir : string) (w : World).

(** One pass: the three calls in order, the first that raises ends it. *)
Lemma render_page_cases doc dir (k : nat) (acc : list string) w :
  let r := render_page doc dir k acc w in
  let path := image_path_of dir k in
  let mat := fitz_Matrix 2 2 in
  ∃ r1 w1, doc_load_page doc k w = (r1, w1) ∧
  match r1 with
  | Raise msg => r = Run (Raise msg) w1 [EvLoadPage doc k (Raise msg)]
  | Return pg =>
    ∃ r2 w2, page_get_pixmap pg mat w1 = (r2, w2) ∧
    match r2 with
    | Raise msg =>
        r = Run (Raise msg) w2
              [EvLoadPage doc k (Return pg); EvGetPixmap pg mat (Raise msg)]
    | Return pix =>
      ∃ r3 w3, pix_save pix path w2 = (r3, w3) ∧
      match r3 with
      | Raise msg =>
          r = Run (Raise msg) w3
                [EvLoadPage doc k (Return pg);
                 EvGetPixmap pg mat (Return pix);
                 EvSave pix path (Raise msg)]
      | Return _ =>
          r = Run (Return (acc ++ [path])) w3
                [EvLoadPage doc k (Return pg);
                 EvGetPixmap pg mat (Return pix);
                 EvSave pix path (Return ())]
      end
    end
  end.
Proof.
  intros r path mat. subst r path mat.
  unfold render_page. rewrite bind_run, call_run.
  destruct (doc_load_page doc k w) as [[pg | msg] w1]; simpl;
    eexists _, _; (split; [reflexivity |]); [| done].
  rewrite bind_run, call_run.
  destruct (page_get_pixmap pg (fitz_Matrix 2 2) w1) as [[pix | msg] w2];
    simpl; eexists _, _; (split; [reflexivity |]); [| done].
  rewrite bind_run, call_run.
  destruct (pix_save pix (image_path_of dir k) w2) as [[[] | msg] w3];
    simpl; eexists _, _; (split; [reflexivity |]); done.
Qed.

Ltac page_cases doc dir k acc w :=
  let H := fresh "Hrun" in
  let E1 := fresh "Eload" in
  let E2 := fresh "Erender" in
  let E3 := fresh "Esave" in
  pose proof (render_page_cases doc dir k acc w) as H; cbv zeta in H;
  destruct H as ([pg | msg] & w1 & E1 & H);
  [ destruct H as ([pix | msg] & w2 & E2 & H);
    [ destruct H as ([[] | msg] & w3 & E3 & H) | ] | ];
  rewrite H; clear H; simpl.

Lemma render_page_faithful doc dir (k : nat) (acc : list string) w :
  faithful (render_page doc dir k acc w).
Proof.
  page_cases doc dir k acc w; unfold faithful; simpl.
  - by repeat constructor.
  - by exists [EvLoadPage doc k (Return pg);
               EvGetPixmap pg (fitz_Matrix 2 2) (Return pix)], (EvSave pix (image_path_of dir k) (Raise msg));
      repeat constructor.
  - by exists [EvLoadPage doc k (Return pg)],
      (EvGetPixmap pg (fitz_Matrix 2 2) (Raise msg)); repeat constructor.
  - by exists [], (EvLoadPage doc k (Raise msg)); repeat constructor.
Qed.

Lemma loop_faithful doc dir (xs : list nat) (acc : list string) w :
  faithful (for_each xs (render_page doc dir) acc w).
Proof. apply faithful_for_each. intros. apply render_page_faithful. Qed.

(** Every rendering call of the loop is given the scaling by 2 and 2;
    the loop makes no other calls than those of its body, and so does
    not close the document. *)
Lemma loop_matrix doc dir (xs : list nat) (acc : list string) w :
  Forall (λ ev, ∀ mat, render_matrix ev = Some mat → mat = fitz_Matrix 2 2)
    (trace (for_each xs (render_page doc dir) acc w)).
Proof.
  apply trace_for_each_Forall. intros k acc' w'.
  page_cases doc dir k acc' w'; repeat constructor; simpl; congruence.
Qed.

Lemma loop_page_events doc dir (xs : list nat) (acc : list string) w :
  Forall (λ ev, is_page_event ev = true)
    (trace (for_each xs (render_page doc dir) acc w)).
Proof.
  apply trace_for_each_Forall. intros k acc' w'.
  page_cases doc dir k acc' w'; by repeat constructor.
Qed.

Lemma loop_close_count doc dir (xs : list nat) (acc : list string) w :
  close_count (trace (for_each xs (render_page doc dir) acc w)) = 0%nat.
Proof.
  unfold close_count.
  induction (loop_page_events doc dir xs acc w) as [| ev t Hev _ IH];
    [done |].
  rewrite filter_cons_False; [done |]. by destruct ev.
Qed.

(** When the loop returns, it has rendered every index with the scaling
    by 2 and 2, written one file per index, in order, and appended
    their paths. *)
Lemma loop_result doc dir (n k : nat) (acc ps : list string) w :
  result (for_each (seq k n) (render_page doc dir) acc w) = Return ps →
  ps = acc ++ (image_path_of dir <$> seq k n)
  ∧ saved (trace (for_each (seq k n) (render_page doc dir) acc w))
    = image_path_of dir <$> seq k n
  ∧ transforms (trace (for_each (seq k n) (render_page doc dir) acc w))
    = replicate n (fitz_Matrix 2 2).
Proof.
  revert k acc w. induction n as [| n IH]; intros k acc w; simpl seq.
  - simpl. intros [= <-]. by rewrite app_nil_r.
  - rewrite for_each_cons, bind_run.
    page_cases doc dir k acc w; try discriminate.
    intros Hres. apply IH in Hres as (-> & Hsaved & Hmat).
    split_and!.
    + by rewrite <- app_assoc.
    + unfold saved in *. simpl. by rewrite Hsaved.
    + unfold transforms in *. simpl. by rewrite Hmat.
Qed.

(** The paths the loop writes to are those of its indices. *)
Lemma loop_saved_range doc dir (n k : nat) (acc : list string) w (p : string) :
  p ∈ saved (trace (for_each (seq k n) (render_page doc dir) acc w)) →
  ∃ i, (k ≤ i < k + n)%nat ∧ p = image_path_of dir i.
Proof.
  revert k acc w. induction n as [| n IH]; intros k acc w; simpl seq.
  - simpl. intros Hin. by apply elem_of_nil in Hin.
  - rewrite for_each_cons, bind_run.
    page_cases doc dir k acc w; unfold saved; simpl;
      try (intros Hin; by apply elem_of_nil in Hin).
    intros [-> | Hin]%elem_of_cons.
    + exists k. split; [lia | done].
    + apply IH in Hin as (i & Hi & ->). exists i. split; [lia | done].
Qed.

(** What the loop leaves on disk: every file it wrote, with the bytes it
    wrote there, and every path that is not a page's as it was. *)
Lemma loop_files `{!FileLaws P} doc dir (n k : nat) (acc : list string) w :
  let r := for_each (seq k n) (render_page doc dir) acc w in
  (∀ pix p, EvSave pix p (Return ()) ∈ trace r →
     fs (final r) !! p = Some (File (png_bytes pix)))
  ∧ (∀ p', (∀ i, (k ≤ i < k + n)%nat → p' ≠ image_path_of dir i) →
     fs (final r) !! p' = fs w !! p').
Proof.
  revert k acc w. induction n as [| n IH]; intros k acc w; simpl seq.
  - simpl. split; [| done]. intros pix p Hin. by apply elem_of_nil in Hin.
  - cbv zeta. rewrite for_each_cons, bind_run.
    pose proof (load_page_fs doc k w) as Hfs1.
    page_cases doc dir k acc w; rewrite Eload in Hfs1; simpl in Hfs1.
    + pose proof (get_pixmap_fs pg (fitz_Matrix 2 2) w1) as Hfs2.
      rewrite Erender in Hfs2; simpl in Hfs2.
      pose proof (save_frame pix (image_path_of dir k) w2) as Hfs3.
      rewrite Esave in Hfs3; simpl in Hfs3.
      destruct (IH (S k) (acc ++ [image_path_of dir k]) w3) as [IHs IHf].
      split.
      * intros pix' p Hin.
        rewrite !elem_of_cons in Hin.
        destruct Hin as [[=] | [[=] | [[= -> ->] | Hin]]]; [| by apply IHs].
        rewrite IHf; [by eapply save_written |].
        intros i Hi Heq. apply image_path_of_inj in Heq. lia.
      * intros p' Hp'. rewrite IHf by (intros i Hi; apply Hp'; lia).
        rewrite Hfs3 by (apply Hp'; lia). by rewrite Hfs2, Hfs1.
    + pose proof (get_pixmap_fs pg (fitz_Matrix 2 2) w1) as Hfs2.
      rewrite Erender in Hfs2; simpl in Hfs2.
      pose proof (save_frame pix (image_path_of dir k) w2) as Hfs3.
      rewrite Esave in Hfs3; simpl in Hfs3.
      split.
      * intros pix' p Hin. rewrite !elem_of_cons in Hin.
        destruct Hin as [[=] | [[=] | [[=] | Hin]]].
        by apply elem_of_nil in Hin.
      * intros p' Hp'. rewrite Hfs3 by (apply Hp'; lia).
        by rewrite Hfs2, Hfs1.
    + pose proof (get_pixmap_fs pg (fitz_Matrix 2 2) w1) as Hfs2.
      rewrite Erender in Hfs2; simpl in Hfs2.
      split.
      * intros pix' p Hin. rewrite !elem_of_cons in Hin.
        destruct Hin as [[=] | [[=] | Hin]].
        by apply elem_of_nil in Hin.
      * intros p' Hp'. by rewrite Hfs2, Hfs1.
    + split.
      * intros pix' p Hin. rewrite !elem_of_cons in Hin.
        destruct Hin as [[=] | Hin].
        by apply elem_of_nil in Hin.
      * intros p' Hp'. by rewrite Hfs1.
Qed.

(** The loop closes no handle. *)
Lemma loop_closed `{!HandleLaws P} (d : Document) doc dir (xs : list nat)
    (acc : list string) w :
  is_closed d (final (for_each xs (render_page doc dir) acc w))
  = is_closed d w.
Proof.
  assert (PreOrder (λ w1 w2 : World, is_closed d w2 = is_closed d w1)) as HR.
  { split; [by intros ? | intros ? ? ? H1 H2; by rewrite H2]. }
  apply (final_for_each (λ w1 w2 : World, is_closed d w2 = is_closed d w1)
           xs (render_page doc dir) acc w).
  intros k acc' w'.
  pose proof (load_page_closed d doc k w') as H1.
  page_cases doc dir k acc' w'; rewrite Eload in H1; simpl in H1;
    try done.
  all: pose proof (get_pixmap_closed d pg (fitz_Matrix 2 2) w1) as H2;
    rewrite Erender in H2; simpl in H2; try (by rewrite H2).
  all: pose proof (save_closed d pix (image_path_of dir k) w2) as H3;
    rewrite Esave in H3; simpl in H3; by rewrite H3, H2.
Qed.

(** How far the loop gets: it writes the files of the first [j]
    indices; when it returns it has loaded and written all of them, when
    it raises it has loaded one more page than it has written. *)
Lemma loop_progress doc dir (n k : nat) (acc : list string) w :
  ∃ j : nat,
    saved (trace (for_each (seq k n) (render_page doc dir) acc w))
    = image_path_of dir <$> seq k j
    ∧ match result (for_each (seq k n) (render_page doc dir) acc w) with
      | Return _ =>
          j = n
          ∧ loaded (trace (for_each (seq k n) (render_page doc dir) acc w))
            = pair doc <$> seq k n
      | Raise _ =>
          (j < n)%nat
          ∧ loaded (trace (for_each (seq k n) (render_page doc dir) acc w))
            = pair doc <$> seq k (S j)
      end.
Proof.
  revert k acc w. induction n as [| n IH]; intros k acc w; simpl seq.
  - by exists 0%nat.
  - rewrite for_each_cons, bind_run.
    page_cases doc dir k acc w.
    + destruct (IH (S k) (acc ++ [image_path_of dir k]) w3)
        as (j & Hsaved & Hres).
      exists (S j). unfold saved, loaded in *. simpl. rewrite Hsaved.
      split; [done |].
      destruct (result (for_each (seq (S k) n) (render_page doc dir)
                          (acc ++ [image_path_of dir k]) w3));
        destruct Hres as [Hj ->]; (split; [lia | done]).
    + exists 0%nat. split_and!; [done | lia | done].
    + exists 0%nat. split_and!; [done | lia | done].
    + exists 0%nat. split_and!; [done | lia | done].
Qed.

(** The loop renders the pages it is given, each as soon as it has it
    and with the scaling by 2 and 2; when it returns it was given one
    page per index. *)
Lemma loop_rendered doc dir (xs : list nat) (acc : list string) w :
  rendered (trace (for_each xs (render_page doc dir) acc w))
  = (λ page, (page, fitz_Matrix 2 2))
      <$> pages_returned (trace (for_each xs (render_page doc dir) acc w))
  ∧ (∀ ps, result (for_each xs (render_page doc dir) acc w) = Return ps →
       length (pages_returned
                 (trace (for_each xs (render_page doc dir) acc w)))
       = length xs).
Proof.
  revert acc w. induction xs as [| k xs IH]; intros acc w.
  - done.
  - rewrite for_each_cons, bind_run.
    page_cases doc dir k acc w; try (split; [done | discriminate]).
    destruct (IH (acc ++ [image_path_of dir k]) w3) as [Hr Hlen].
    unfold rendered, pages_returned in *. simpl. rewrite Hr.
    split; [done |]. intros ps Hres. by rewrite (Hlen ps Hres).
Qed.

(** The loop leaves alone every path that names the file of none of its
    pages. *)
Lemma loop_frame_resolved (same_file : string → string → Prop)
    `{!ResolvedLaws P same_file} doc dir (n k : nat) (acc : list string) w
    (p : string) :
  (∀ i, (k ≤ i < k + n)%nat → ¬ same_file p (image_path_of dir i)) →
  fs (final (for_each (seq k n) (render_page doc dir) acc w)) !! p
  = fs w !! p.
Proof.
  revert k acc w. induction n as [| n IH]; intros k acc w Hp; simpl seq.
  - done.
  - rewrite for_each_cons, bind_run.
    pose proof (resolved_load_page doc k w) as Hfs1.
    page_cases doc dir k acc w; rewrite Eload in Hfs1; simpl in Hfs1;
      try (by rewrite Hfs1);
      pose proof (resolved_get_pixmap pg (fitz_Matrix 2 2) w1) as Hfs2;
      rewrite Erender in Hfs2; simpl in Hfs2;
      try (by rewrite Hfs2, Hfs1);
      pose proof (resolved_save pix (image_path_of dir k) w2 p) as Hfs3;
      rewrite Esave in Hfs3; simpl in Hfs3.
    + rewrite IH by (intros i Hi; apply Hp; lia).
      rewrite Hfs3 by (apply Hp; lia). by rewrite Hfs2, Hfs1.
    + rewrite Hfs3 by (apply Hp; lia). by rewrite Hfs2, Hfs1.
Qed.

End Loop.

(** ** Runs of [pdf_to_images] *)

Section Conversion.

Context {P : Platform}.

Implicit Types (pdf_path output_dir : string) (w : World).

(** The run, call by call: the first call that raises ends it with the
    failure dictionary of its message; if none does the run ends with
    the success dictionary of the paths the loop collected. *)
Lemma pdf_to_images_cases pdf_path output_dir w :
  let r := pdf_to_images pdf_path output_dir w in
  ∃ r1 w1, os_makedirs output_dir w = (r1, w1) ∧
  match r1 with
  | Raise msg =>
      r = Run (Return (failure_dict msg)) w1
            [EvMakedirs output_dir (Raise msg)]
  | Return _ =>
    ∃ r2 w2, fitz_open pdf_path w1 = (r2, w2) ∧
    match r2 with
    | Raise msg =>
        r = Run (Return (failure_dict msg)) w2
              [EvMakedirs output_dir (Return ());
               EvOpen pdf_path (Raise msg)]
    | Return doc =>
      let pre := [EvMakedirs output_dir (Return ());
                  EvOpen pdf_path (Return doc);
                  EvLen doc (doc_len doc w2)] in
      match doc_len doc w2 with
      | Raise msg => r = Run (Return (failure_dict msg)) w2 pre
      | Return n =>
        let l := for_each (seq 0 n) (render_page doc output_dir) [] w2 in
        match result l with
        | Raise msg =>
            r = Run (Return (failure_dict msg)) (final l) (pre ++ trace l)
        | Return image_paths =>
          ∃ r3 w3, doc_close doc (final l) = (r3, w3) ∧
          match r3 with
          | Raise msg =>
              r = Run (Return (failure_dict msg)) w3
                    (pre ++ trace l ++ [EvClose doc (Raise msg)])
          | Return _ =>
              r = Run (Return (success_dict image_paths)) w3
                    (pre ++ trace l ++ [EvClose doc (Return ())])
          end
        end
      end
    end
  end.
Proof.
  cbv zeta. unfold pdf_to_images, try_except.
  rewrite bind_run, call_run.
  destruct (os_makedirs output_dir w) as [[[] | msg] w1]; simpl;
    eexists _, _; (split; [reflexivity |]); [| done].
  rewrite bind_run, call_run.
  destruct (fitz_open pdf_path w1) as [[doc | msg] w2]; simpl;
    eexists _, _; (split; [reflexivity |]); [| done].
  rewrite bind_run, call_run. simpl.
  destruct (doc_len doc w2) as [n | msg]; simpl; [| done].
  rewrite bind_run.
  destruct (result (for_each (seq 0 n) (render_page doc output_dir) [] w2))
    as [image_paths | msg]; simpl; [| by rewrite app_nil_r].
  rewrite bind_run, call_run.
  destruct (doc_close doc _) as [[[] | msg] w3]; simpl;
    eexists _, _; (split; [reflexivity |]); simpl.
  - done.
  - by rewrite app_nil_r.
Qed.

Ltac conversion_cases pdf dir w :=
  let H := fresh "Hrun" in
  pose proof (pdf_to_images_cases pdf dir w) as H; cbv zeta in H;
  destruct H as ([[] | msg] & w1 & Emakedirs & H);
  [ destruct H as ([doc | msg] & w2 & Eopen & H);
    [ destruct (doc_len doc w2) as [n | msg] eqn:Elen;
      [ destruct (result (for_each (seq 0 n) (render_page doc dir) [] w2))
          as [image_paths | msg] eqn:Eloop;
        [ destruct H as ([[] | msg] & w3 & Eclose & H) | ] | ] | ] | ];
  rewrite H; clear H; simpl.

Lemma quiet_not_raised (t : list event) (ev : event) (msg : string) :
  quiet t → ev ∈ t → raised ev = Some msg → False.
Proof.
  intros Hq Hin Hev. unfold quiet in Hq. rewrite Forall_forall in Hq.
  apply Hq in Hin. congruence.
Qed.

Lemma aborted_last (t : list event) (ev : event) (msg msg' : string) :
  aborted msg t → ev ∈ t → raised ev = Some msg' →
  msg' = msg ∧ ∃ t0, t = t0 ++ [ev] ∧ quiet t0.
Proof.
  intros (t0 & ev0 & -> & Hq & Hev0) Hin Hev.
  apply elem_of_app in Hin as [Hin | Hin].
  - by destruct (quiet_not_raised t0 ev msg').
  - apply list_elem_of_singleton in Hin as ->.
    split; [congruence | by exists t0].
Qed.

(** The result tells what happened: the success dictionary after calls
    that all returned, the failure dictionary of the message of the last
    call, the only one that raised. *)
Lemma pdf_to_images_outcome pdf_path output_dir w :
  let r := pdf_to_images pdf_path output_dir w in
  (∃ image_paths, result r = Return (success_dict image_paths)
                  ∧ quiet (trace r))
  ∨ (∃ msg, result r = Return (failure_dict msg) ∧ aborted msg (trace r)).
Proof.
  cbv zeta.
  conversion_cases pdf_path output_dir w.
  - left. exists image_paths. split; [done |].
    pose proof (loop_faithful doc output_dir (seq 0 n) [] w2) as Hl.
    unfold faithful in Hl. rewrite Eloop in Hl.
    unfold quiet. repeat constructor.
    apply Forall_app. split; [done | by repeat constructor].
  - right. exists msg. split; [done |].
    pose proof (loop_faithful doc output_dir (seq 0 n) [] w2) as Hl.
    unfold faithful in Hl. rewrite Eloop in Hl.
    apply (aborted_app msg [_; _; _]); [by repeat constructor |].
    apply aborted_app; [done |].
    by exists [], (EvClose doc (Raise msg)); repeat constructor.
  - right. exists msg. split; [done |].
    pose proof (loop_faithful doc output_dir (seq 0 n) [] w2) as Hl.
    unfold faithful in Hl. rewrite Eloop in Hl.
    apply (aborted_app msg [_; _; _]); [by repeat constructor | done].
  - right. exists msg. split; [done |].
    by exists [EvMakedirs output_dir (Return ()); EvOpen pdf_path (Return doc)],
      (EvLen doc (Raise msg)); repeat constructor.
  - right. exists msg. split; [done |].
    by exists [EvMakedirs output_dir (Return ())],
      (EvOpen pdf_path (Raise msg)); repeat constructor.
  - right. exists msg. split; [done |].
    by exists [], (EvMakedirs output_dir (Raise msg)); repeat constructor.
Qed.

#[local] Instance image_path_of_Inj (dir : string) :
  Inj (=) (=) (image_path_of dir).
Proof. intros i j. apply image_path_of_inj. Qed.

(** C9: [pdf_to_images] never raises.  In every world and for every
    pair of arguments it returns a dictionary, which is either the
    success dictionary, with the keys [success], [pages] and
    [image_paths] and no [error], or the failure dictionary, with the
    keys [success] and [error] and neither [pages] nor [image_paths];
    no result has [error] together with [pages] or [image_paths]. *)
Theorem pdf_to_images_total pdf_path output_dir w :
  ∃ d, result (pdf_to_images pdf_path output_dir w) = Return d
  ∧ ((∃ image_paths,
        d = [("success", Py.Bool true);
             ("pages", Py.Int (Z.of_nat (length image_paths)));
             ("image_paths", Py.List (Py.Str <$> image_paths))]
        ∧ Py.keys d = ["success"; "pages"; "image_paths"]
        ∧ Py.has_key "error" d = false)
     ∨ (∃ msg,
        d = [("success", Py.Bool false); ("error", Py.Str msg)]
        ∧ Py.keys d = ["success"; "error"]
        ∧ Py.has_key "pages" d = false
        ∧ Py.has_key "image_paths" d = false))
  ∧ Py.has_key "error" d = negb (Py.has_key "pages" d)
  ∧ Py.has_key "error" d = negb (Py.has_key "image_paths" d).
Proof.
  destruct (pdf_to_images_outcome pdf_path output_dir w)
    as [(image_paths & -> & _) | (msg & -> & _)]; eexists; split; try done.
  - split; [left; by exists image_paths | done].
  - split; [right; by exists msg | done].
Qed.

(** The paths of a run that returned the success dictionary. *)
Lemma success_paths pdf_path output_dir w (ps : list string) :
  result (pdf_to_images pdf_path output_dir w)
  = Return (success_dict ps) →
  ∃ w1 doc w2 n,
    os_makedirs output_dir w = (Return (), w1)
    ∧ fitz_open pdf_path w1 = (Return doc, w2)
    ∧ doc_len doc w2 = Return n
    ∧ ps = image_path_of output_dir <$> seq 0 n
    ∧ saved (trace (pdf_to_images pdf_path output_dir w)) = ps
    ∧ transforms (trace (pdf_to_images pdf_path output_dir w))
      = replicate n (fitz_Matrix 2 2).
Proof.
  conversion_cases pdf_path output_dir w; try discriminate.
  intros Hd.
  assert (image_paths = ps) as ->.
  { injection Hd as _ Hl.
    assert (Inj (=) (=) Py.Str) by (by intros ? ? [=]).
    by apply (inj (fmap Py.Str)) in Hl. }
  apply loop_result in Eloop as (Hps & Hsaved & Hmat). simpl in Hps.
  exists w1, doc, w2, n. split_and!; try done.
  - unfold saved in *. simpl. rewrite omap_app, Hsaved. simpl.
    by rewrite app_nil_r.
  - unfold transforms in *. simpl. rewrite omap_app, Hmat. simpl.
    by rewrite app_nil_r.
Qed.

Lemma success_flag (d : Py.dict) :
  (∃ image_paths, d = success_dict image_paths) ∨ (∃ msg, d = failure_dict msg) →
  Py.get "success" d = Some (Py.Bool true) →
  ∃ image_paths, d = success_dict image_paths.
Proof. intros [H | [msg ->]]; [done | discriminate]. Qed.

Lemma result_shape pdf_path output_dir w (d : Py.dict) :
  result (pdf_to_images pdf_path output_dir w) = Return d →
  (∃ image_paths, d = success_dict image_paths) ∨ (∃ msg, d = failure_dict msg).
Proof.
  destruct (pdf_to_images_outcome pdf_path output_dir w)
    as [(ps & -> & _) | (msg & -> & _)]; intros [= <-]; eauto.
Qed.

(** C1: when [pdf_to_images] returns a success result, [pages] is the
    number of entries of [image_paths], and it is the page count
    [len(doc)] of the document [fitz.open] returned, in the world
    [fitz.open] left. *)
Theorem pages_is_page_count pdf_path output_dir w (d : Py.dict) :
  result (pdf_to_images pdf_path output_dir w) = Return d →
  Py.get "success" d = Some (Py.Bool true) →
  ∃ w1 doc w2 (n : nat) (image_paths : list string),
    os_makedirs output_dir w = (Return (), w1)
    ∧ fitz_open pdf_path w1 = (Return doc, w2)
    ∧ doc_len doc w2 = Return n
    ∧ Py.get "pages" d = Some (Py.Int (Z.of_nat n))
    ∧ Py.get "image_paths" d = Some (Py.List (Py.Str <$> image_paths))
    ∧ length image_paths = n.
Proof.
  intros Hres Hflag.
  destruct (success_flag d (result_shape _ _ _ _ Hres) Hflag) as [ps ->].
  destruct (success_paths _ _ _ _ Hres)
    as (w1 & doc & w2 & n & Hmk & Hopen & Hlen & Hps & _).
  assert (length ps = n) as Hn.
  { rewrite Hps, length_fmap. apply length_seq. }
  exists w1, doc, w2, n, ps. split_and!; try done.
  simpl. by rewrite Hn.
Qed.

(** C2: in a success result over a document of [n] pages, entry [i] of
    [image_paths] is [output_dir] joined with [page-{i+1}.png] for every
    [i] below [n]; the entries are pairwise different, and they are the
    paths the run wrote, in the order it wrote them. *)
Theorem image_paths_in_page_order pdf_path output_dir w (d : Py.dict) :
  result (pdf_to_images pdf_path output_dir w) = Return d →
  Py.get "success" d = Some (Py.Bool true) →
  ∃ (n : nat) (image_paths : list string),
    Py.get "pages" d = Some (Py.Int (Z.of_nat n))
    ∧ Py.get "image_paths" d = Some (Py.List (Py.Str <$> image_paths))
    ∧ length image_paths = n
    ∧ (∀ i : nat, (i < n)%nat →
         image_paths !! i
         = Some (Path.join output_dir
                   ("page-" +:+ pretty (i + 1)%nat +:+ ".png")))
    ∧ NoDup image_paths
    ∧ saved (trace (pdf_to_images pdf_path output_dir w)) = image_paths.
Proof.
  intros Hres Hflag.
  destruct (success_flag d (result_shape _ _ _ _ Hres) Hflag) as [ps ->].
  destruct (success_paths _ _ _ _ Hres)
    as (w1 & doc & w2 & n & _ & _ & _ & Hps & Hsaved & _).
  assert (length ps = n) as Hn.
  { rewrite Hps, length_fmap. apply length_seq. }
  exists n, ps. split_and!; try done.
  - simpl. by rewrite Hn.
  - intros i Hi. rewrite Hps, list_lookup_fmap, lookup_seq_lt by done.
    reflexivity.
  - rewrite Hps. apply (NoDup_fmap_2 _), NoDup_seq.
Qed.

(** Whatever a run wrote is on disk when it ends, with the bytes it
    wrote. *)
Lemma saved_files_remain `{!FileLaws P} pdf_path output_dir w
    (pix : Pixmap) (p : string) :
  EvSave pix p (Return ()) ∈ trace (pdf_to_images pdf_path output_dir w) →
  fs (final (pdf_to_images pdf_path output_dir w)) !! p
  = Some (File (png_bytes pix)).
Proof.
  conversion_cases pdf_path output_dir w; intros Hin;
    rewrite ?elem_of_cons, ?elem_of_app, ?list_elem_of_singleton in Hin.
  - destruct Hin as [[=] | [[=] | [[=] | [Hin | [=]]]]].
    pose proof (close_fs doc
      (final (for_each (seq 0 n) (render_page doc output_dir) [] w2))) as Hc.
    rewrite Eclose in Hc. simpl in Hc. rewrite Hc.
    by apply loop_files.
  - destruct Hin as [[=] | [[=] | [[=] | [Hin | [=]]]]].
    pose proof (close_fs doc
      (final (for_each (seq 0 n) (render_page doc output_dir) [] w2))) as Hc.
    rewrite Eclose in Hc. simpl in Hc. rewrite Hc.
    by apply loop_files.
  - destruct Hin as [[=] | [[=] | [[=] | Hin]]].
    by apply loop_files.
  - destruct Hin as [[=] | [[=] | [[=] | Hin]]]. by apply elem_of_nil in Hin.
  - destruct Hin as [[=] | [[=] | Hin]]. by apply elem_of_nil in Hin.
  - destruct Hin as [[=] | Hin]. by apply elem_of_nil in Hin.
Qed.

(** C4: when a library call of [pdf_to_images] raises, that call is the
    last one of the run and no call before it raised; the function
    returns the dictionary [{success: False, error: msg}] with [msg] the
    text of the exception; every file a [pix.save] of the run wrote
    before is on disk when the function returns, with the bytes that
    were written; and the result has neither [image_paths] nor
    [pages]. *)
Theorem exception_aborts `{!FileLaws P} pdf_path output_dir w
    (ev : event) (msg : string) :
  ev ∈ trace (pdf_to_images pdf_path output_dir w) →
  raised ev = Some msg →
  (∃ t0, trace (pdf_to_images pdf_path output_dir w) = t0 ++ [ev]
         ∧ quiet t0)
  ∧ result (pdf_to_images pdf_path output_dir w)
    = Return [("success", Py.Bool false); ("error", Py.Str msg)]
  ∧ (∀ (pix : Pixmap) (p : string),
       EvSave pix p (Return ()) ∈ trace (pdf_to_images pdf_path output_dir w) →
       fs (final (pdf_to_images pdf_path output_dir w)) !! p
       = Some (File (png_bytes pix)))
  ∧ (∀ d, result (pdf_to_images pdf_path output_dir w) = Return d →
       Py.get "image_paths" d = None ∧ Py.get "pages" d = None).
Proof.
  intros Hin Hev.
  destruct (pdf_to_images_outcome pdf_path output_dir w)
    as [(ps & Hres & Hq) | (msg' & Hres & Hab)].
  - by destruct (quiet_not_raised _ ev msg Hq).
  - destruct (aborted_last _ ev msg' msg Hab Hin Hev) as [-> Hlast].
    split_and!; [done | done | |].
    + intros pix p. apply saved_files_remain.
    + rewrite Hres. by intros d [= <-].
Qed.

(** C7: every rendering call of every run is given the matrix
    [fitz.Matrix(2, 2)], the scaling by 2 on each axis with no shear and
    no translation, whatever the arguments and the document; the pages
    rendered are the pages [doc.load_page] returned, each rendered once,
    in order, with that matrix; and a run that succeeds over a document
    of [count] pages was given its pages 0 to [count - 1] and made
    [count] rendering calls, all with that matrix. *)
Theorem fixed_scale pdf_path output_dir w :
  Forall (λ ev, ∀ mat, render_matrix ev = Some mat →
            mat = {| m_a := 2; m_b := 0; m_c := 0;
                     m_d := 2; m_e := 0; m_f := 0 |})
    (trace (pdf_to_images pdf_path output_dir w))
  ∧ rendered (trace (pdf_to_images pdf_path output_dir w))
    = (λ page, (page, {| m_a := 2; m_b := 0; m_c := 0;
                         m_d := 2; m_e := 0; m_f := 0 |}))
        <$> pages_returned (trace (pdf_to_images pdf_path output_dir w))
  ∧ (∀ (wm wo : World) (d : Document) (count : nat) (ps : list string),
       os_makedirs output_dir w = (Return (), wm) →
       fitz_open pdf_path wm = (Return d, wo) →
       doc_len d wo = Return count →
       result (pdf_to_images pdf_path output_dir w)
       = Return (success_dict ps) →
       loaded (trace (pdf_to_images pdf_path output_dir w))
       = pair d <$> seq 0 count
       ∧ length (pages_returned (trace (pdf_to_images pdf_path output_dir w)))
         = count
       ∧ transforms (trace (pdf_to_images pdf_path output_dir w))
         = replicate count {| m_a := 2; m_b := 0; m_c := 0;
                              m_d := 2; m_e := 0; m_f := 0 |}
       ∧ length ps = count).
Proof.
  split_and!.
  - conversion_cases pdf_path output_dir w;
      repeat (apply Forall_cons; split; [by intros mat [=] |]);
      rewrite ?Forall_app; repeat split;
      try apply (loop_matrix doc output_dir); by repeat constructor.
  - conversion_cases pdf_path output_dir w; try done;
      unfold rendered, pages_returned; simpl; rewrite ?omap_app; simpl;
      rewrite ?app_nil_r;
      apply (loop_rendered doc output_dir (seq 0 n) [] w2).
  - intros wm wo d count ps Hmk Hopen Hlen.
    conversion_cases pdf_path output_dir w; try discriminate.
    intros Hres.
    assert (w1 = wm) as -> by congruence.
    assert (doc = d) as -> by congruence.
    assert (w2 = wo) as -> by congruence.
    assert (n = count) as -> by congruence.
    assert (image_paths = ps) as ->.
    { injection Hres as _ Hl.
      assert (Inj (=) (=) Py.Str) by (by intros ? ? [=]).
      by apply (inj (fmap Py.Str)) in Hl. }
    destruct (loop_progress d output_dir count 0 [] wo) as (j & _ & Hprog).
    rewrite Eloop in Hprog. destruct Hprog as [_ Hloaded].
    destruct (loop_rendered d output_dir (seq 0 count) [] wo) as [_ Hpages].
    specialize (Hpages ps Eloop). rewrite length_seq in Hpages.
    apply loop_result in Eloop as (Hps & _ & Hmat). simpl in Hps.
    unfold loaded, pages_returned, transforms in *. simpl.
    rewrite !omap_app, Hloaded, Hmat. simpl. rewrite !app_nil_r.
    split_and!; [done | exact Hpages | done |].
    rewrite Hps, length_fmap. apply length_seq.
Qed.

Lemma close_count_app (t1 t2 : list event) :
  close_count (t1 ++ t2) = (close_count t1 + close_count t2)%nat.
Proof. unfold close_count. by rewrite filter_app, length_app. Qed.

Lemma close_count_cons (ev : event) (t : list event) :
  close_count (ev :: t)
  = ((if is_close ev then 1 else 0) + close_count t)%nat.
Proof.
  unfold close_count. destruct (is_close ev) eqn:E.
  - by rewrite filter_cons_True.
  - rewrite filter_cons_False; [done | congruence].
Qed.

Lemma loop_no_open doc dir (xs : list nat) (acc : list string) w
    (path : string) (r : outcome Document) :
  EvOpen path r ∉ trace (for_each xs (render_page doc dir) acc w).
Proof.
  intros Hin.
  pose proof (loop_page_events doc dir xs acc w) as Hall.
  rewrite Forall_forall in Hall. by apply Hall in Hin.
Qed.

(** C8: a run that succeeds closes the handle [fitz.open] gave it once,
    as its last call, after the files of all pages were written, and
    leaves it closed; a run that opened the document and fails makes no
    call of [doc.close()] and leaves the handle open. *)
Theorem close_only_on_success `{!HandleLaws P} pdf_path output_dir w :
  (∀ image_paths,
     result (pdf_to_images pdf_path output_dir w)
     = Return (success_dict image_paths) →
     ∃ doc t0,
       trace (pdf_to_images pdf_path output_dir w)
       = t0 ++ [EvClose doc (Return ())]
       ∧ EvOpen pdf_path (Return doc) ∈ t0
       ∧ close_count t0 = 0%nat
       ∧ saved t0 = image_paths
       ∧ close_count (trace (pdf_to_images pdf_path output_dir w)) = 1%nat
       ∧ is_closed doc (final (pdf_to_images pdf_path output_dir w)) = true)
  ∧ (∀ msg doc,
       result (pdf_to_images pdf_path output_dir w)
       = Return (failure_dict msg) →
       EvOpen pdf_path (Return doc)
         ∈ trace (pdf_to_images pdf_path output_dir w) →
       close_count (trace (pdf_to_images pdf_path output_dir w)) = 0%nat
       ∧ is_closed doc (final (pdf_to_images pdf_path output_dir w)) = false).
Proof.
  pose proof (success_paths pdf_path output_dir w) as Hsucc.
  revert Hsucc.
  conversion_cases pdf_path output_dir w; intros Hsucc.
  - (* every call returned *)
    assert (is_closed doc
      (final (for_each (seq 0 n) (render_page doc output_dir) [] w2)) = false)
      as Hopen.
    { rewrite loop_closed. by eapply open_not_closed. }
    apply close_open in Hopen as (w3' & Hclose & Hclosed).
    rewrite Eclose in Hclose.
    assert (w3' = w3) as -> by congruence. clear Hclose.
    split; [| discriminate].
    intros ps Hres.
    destruct (Hsucc ps Hres)
      as (w1' & doc' & w2' & n' & _ & _ & _ & _ & Hsaved & _).
    exists doc,
      ([EvMakedirs output_dir (Return ()); EvOpen pdf_path (Return doc);
        EvLen doc (Return n)]
       ++ trace (for_each (seq 0 n) (render_page doc output_dir) [] w2)).
    split_and!.
    + by rewrite <- app_assoc.
    + set_solver.
    + by rewrite close_count_app, loop_close_count.
    + unfold saved in *. simpl in *.
      rewrite omap_app in Hsaved. simpl in Hsaved.
      by rewrite app_nil_r in Hsaved.
    + by rewrite !close_count_cons, close_count_app, loop_close_count.
    + done.
  - (* [doc.close()] raised: it does not, on an open handle *)
    assert (is_closed doc
      (final (for_each (seq 0 n) (render_page doc output_dir) [] w2)) = false)
      as Hopen.
    { rewrite loop_closed. by eapply open_not_closed. }
    apply close_open in Hopen as (w3' & Hclose & Hclosed).
    rewrite Eclose in Hclose. discriminate.
  - (* the loop raised *)
    split; [discriminate |].
    intros msg' doc' _ Hin.
    rewrite !elem_of_cons in Hin.
    destruct Hin as [[=] | [[= <-] | [[=] | Hin]]];
      [| by apply loop_no_open in Hin].
    split.
    + by rewrite !close_count_cons, loop_close_count.
    + rewrite loop_closed. by eapply open_not_closed.
  - (* [len(doc)] raised *)
    split; [discriminate |].
    intros msg' doc' _ Hin.
    rewrite !elem_of_cons in Hin.
    destruct Hin as [[=] | [[= <-] | [[=] | Hin]]];
      [| by apply elem_of_nil in Hin].
    split; [done | by eapply open_not_closed].
  - (* [fitz.open] raised *)
    split; [discriminate |].
    intros msg' doc' _ Hin.
    rewrite !elem_of_cons in Hin.
    destruct Hin as [[=] | [[=] | Hin]]. by apply elem_of_nil in Hin.
  - (* [os.makedirs] raised *)
    split; [discriminate |].
    intros msg' doc' _ Hin.
    rewrite !elem_of_cons in Hin.
    destruct Hin as [[=] | Hin]. by apply elem_of_nil in Hin.
Qed.

(** ** More on the runs of [pdf_to_images] *)

Lemma loop_prelude_free doc dir (xs : list nat) (acc : list string) w :
  Forall (λ ev, is_makedirs ev = false ∧ is_open ev = false)
    (trace (for_each xs (render_page doc dir) acc w)).
Proof.
  eapply Forall_impl; [apply loop_page_events |].
  intros ev Hev. by destruct ev.
Qed.

(** X1: the first call of every run is [os.makedirs(output_dir)], and
    it is the only such call; when it raises there is no other call, and
    when it returns the next call is [fitz.open(pdf_path)], the only
    such call, after which there is no call if it raises. *)
Theorem makedirs_then_open pdf_path output_dir w :
  ∃ r1 t1,
    trace (pdf_to_images pdf_path output_dir w)
    = EvMakedirs output_dir r1 :: t1
    ∧ Forall (λ ev, is_makedirs ev = false) t1
    ∧ match r1 with
      | Raise _ => t1 = []
      | Return _ =>
          ∃ r2 t2,
            t1 = EvOpen pdf_path r2 :: t2
            ∧ Forall (λ ev, is_open ev = false) t2
            ∧ (∀ msg, r2 = Raise msg → t2 = [])
      end.
Proof.
  pose proof (loop_prelude_free) as Hloop.
  conversion_cases pdf_path output_dir w;
    eexists _, _; (split; [reflexivity |]).
  - split.
    + repeat (apply Forall_cons; split; [done |]).
      apply Forall_app. split; [| by repeat constructor].
      eapply Forall_impl; [apply Hloop |]. by intros ev [? ?].
    + eexists _, _. split_and!; [reflexivity | | discriminate].
      apply Forall_cons; split; [done |].
      apply Forall_app. split; [| by repeat constructor].
      eapply Forall_impl; [apply Hloop |]. by intros ev [? ?].
  - split.
    + repeat (apply Forall_cons; split; [done |]).
      apply Forall_app. split; [| by repeat constructor].
      eapply Forall_impl; [apply Hloop |]. by intros ev [? ?].
    + eexists _, _. split_and!; [reflexivity | | discriminate].
      apply Forall_cons; split; [done |].
      apply Forall_app. split; [| by repeat constructor].
      eapply Forall_impl; [apply Hloop |]. by intros ev [? ?].
  - split.
    + repeat (apply Forall_cons; split; [done |]).
      eapply Forall_impl; [apply Hloop |]. by intros ev [? ?].
    + eexists _, _. split_and!; [reflexivity | | discriminate].
      apply Forall_cons; split; [done |].
      eapply Forall_impl; [apply Hloop |]. by intros ev [? ?].
  - split; [by repeat constructor |].
    eexists _, _. split_and!; [reflexivity | | discriminate].
    by repeat constructor.
  - split; [by repeat constructor |].
    eexists _, _. split_and!; [reflexivity | by constructor | done].
  - split; [by constructor | done].
Qed.

(** X2: a run that reports a failure made a call that raised: it is the
    last call of the run, no call before it raised, and the [error] of
    the result is its message; a run that reports success made no call
    that raised. *)
Theorem failure_only_after_exception pdf_path output_dir w (d : Py.dict) :
  result (pdf_to_images pdf_path output_dir w) = Return d →
  (Py.get "success" d = Some (Py.Bool false) →
   ∃ t0 ev msg,
     trace (pdf_to_images pdf_path output_dir w) = t0 ++ [ev]
     ∧ quiet t0 ∧ raised ev = Some msg
     ∧ Py.get "error" d = Some (Py.Str msg))
  ∧ (Py.get "success" d = Some (Py.Bool true) →
     quiet (trace (pdf_to_images pdf_path output_dir w))).
Proof.
  destruct (pdf_to_images_outcome pdf_path output_dir w)
    as [(ps & -> & Hq) | (msg & -> & t0 & ev & Ht & Hq & Hev)];
    intros [= <-]; (split; [| done]).
  - discriminate.
  - intros _. by exists t0, ev, msg.
Qed.

(** X3: once the document is open with [n] pages, the run asks for the
    pages in index order, starting at 0, and writes each before asking
    for the next: either it has loaded and written all [n] pages, or it
    reports a failure after it loaded the pages [0..j] and wrote the
    files of the pages [0..j-1], for some [j] below [n]. *)
Theorem pages_processed_in_order pdf_path output_dir w
    (wm wo : World) (d : Document) (count : nat) :
  os_makedirs output_dir w = (Return (), wm) →
  fitz_open pdf_path wm = (Return d, wo) →
  doc_len d wo = Return count →
  ∃ j : nat,
    saved (trace (pdf_to_images pdf_path output_dir w))
    = image_path_of output_dir <$> seq 0 j
    ∧ ((j = count
        ∧ loaded (trace (pdf_to_images pdf_path output_dir w))
          = pair d <$> seq 0 count)
       ∨ ((j < count)%nat
          ∧ loaded (trace (pdf_to_images pdf_path output_dir w))
            = pair d <$> seq 0 (S j)
          ∧ ∃ msg, result (pdf_to_images pdf_path output_dir w)
                   = Return (failure_dict msg))).
Proof.
  intros Hmk Hopen Hlen.
  conversion_cases pdf_path output_dir w; try (exfalso; congruence);
    assert (w1 = wm) as -> by congruence;
    assert (doc = d) as -> by congruence;
    assert (w2 = wo) as -> by congruence;
    assert (n = count) as -> by congruence;
    destruct (loop_progress d output_dir count 0 [] wo)
      as (j & Hsaved & Hres);
    rewrite Eloop in Hres; destruct Hres as [Hj Hloaded];
    exists j; unfold saved, loaded in *; simpl;
    rewrite ?omap_app, Hsaved, Hloaded; simpl; rewrite ?app_nil_r;
    (split; [done |]).
  - left. by subst j.
  - left. by subst j.
  - right. split_and!; [done | done | by exists msg].
Qed.

(** X4: a document of no pages converts: the run makes the four calls
    [os.makedirs], [fitz.open], [len] and [doc.close] and no page call,
    writes no file, and returns the success dictionary with [pages] 0
    and an empty [image_paths]. *)
Theorem empty_document_succeeds `{!HandleLaws P} pdf_path output_dir w
    (wm wo : World) (d : Document) :
  os_makedirs output_dir w = (Return (), wm) →
  fitz_open pdf_path wm = (Return d, wo) →
  doc_len d wo = Return 0%nat →
  result (pdf_to_images pdf_path output_dir w)
  = Return [("success", Py.Bool true); ("pages", Py.Int 0);
            ("image_paths", Py.List [])]
  ∧ trace (pdf_to_images pdf_path output_dir w)
    = [EvMakedirs output_dir (Return ()); EvOpen pdf_path (Return d);
       EvLen d (Return 0%nat); EvClose d (Return ())]
  ∧ saved (trace (pdf_to_images pdf_path output_dir w)) = [].
Proof.
  intros Hmk Hopen Hlen.
  pose proof (open_not_closed _ _ _ _ Hopen) as Hfresh.
  apply close_open in Hfresh as (w' & Hclose & _).
  conversion_cases pdf_path output_dir w; try (exfalso; congruence);
    assert (w1 = wm) as -> by congruence;
    assert (doc = d) as -> by congruence;
    assert (w2 = wo) as -> by congruence;
    assert (n = 0%nat) as -> by congruence;
    simpl in *; try (exfalso; congruence).
  by injection Eloop as <-.
Qed.


(** X5: when paths that name one file are related by [same_file]
    (other spellings of a path, links), a regular file whose path names
    the file of no page path of [output_dir] is on disk after every
    run, with the bytes it had: the run writes to its page files only,
    and so leaves the PDF it reads as it is unless the PDF is itself
    the file of a page path of [output_dir]. *)
Theorem other_files_untouched (same_file : string → string → Prop)
    `{!ResolvedLaws P same_file} pdf_path output_dir w (p data : string) :
  fs w !! p = Some (File data) →
  (∀ i : nat,
     ¬ same_file p (Path.join output_dir
                      ("page-" +:+ pretty (i + 1)%nat +:+ ".png"))) →
  fs (final (pdf_to_images pdf_path output_dir w)) !! p = Some (File data).
Proof.
  intros Hfile Hp.
  pose proof (resolved_makedirs output_dir w p data Hfile) as Hmk.
  conversion_cases pdf_path output_dir w; rewrite Emakedirs in Hmk;
    simpl in Hmk; try done;
    pose proof (resolved_open pdf_path w1) as Hopen; rewrite Eopen in Hopen;
    simpl in Hopen; rewrite <- Hopen in Hmk; try done.
  - pose proof (resolved_close doc
      (final (for_each (seq 0 n) (render_page doc output_dir) [] w2))) as Hc.
    rewrite Eclose in Hc. simpl in Hc. rewrite Hc.
    rewrite (loop_frame_resolved same_file); [done |].
    intros i _. apply Hp.
  - pose proof (resolved_close doc
      (final (for_each (seq 0 n) (render_page doc output_dir) [] w2))) as Hc.
    rewrite Eclose in Hc. simpl in Hc. rewrite Hc.
    rewrite (loop_frame_resolved same_file); [done |].
    intros i _. apply Hp.
  - rewrite (loop_frame_resolved same_file); [done |].
    intros i _. apply Hp.
Qed.


(** X7: the paths a successful run reports depend only on [output_dir]
    and on the number of pages: of two successful runs into the same
    directory, over any documents, the one with fewer pages reports a
    prefix of what the other reports, and runs with the same number of
    pages report the same paths. *)
Theorem paths_depend_on_page_count pdf_path1 pdf_path2 output_dir
    (wa wb : World) (ps1 ps2 : list string) :
  result (pdf_to_images pdf_path1 output_dir wa) = Return (success_dict ps1) →
  result (pdf_to_images pdf_path2 output_dir wb) = Return (success_dict ps2) →
  (length ps1 ≤ length ps2)%nat →
  ps1 `prefix_of` ps2 ∧ (length ps1 = length ps2 → ps1 = ps2).
Proof.
  intros H1 H2 Hle.
  destruct (success_paths _ _ _ _ H1)
    as (? & ? & ? & n1 & _ & _ & _ & -> & _).
  destruct (success_paths _ _ _ _ H2)
    as (? & ? & ? & n2 & _ & _ & _ & -> & _).
  rewrite !length_fmap, !length_seq in Hle.
  rewrite !length_fmap, !length_seq.
  split.
  - exists (image_path_of output_dir <$> seq n1 (n2 - n1)).
    rewrite <- fmap_app. f_equal.
    replace n2 with (n1 + (n2 - n1))%nat at 1 by lia.
    apply seq_app.
  - by intros ->.
Qed.

End Conversion.

(** ** Runs of the program *)

Section Program.

Context {P : Platform}.

Implicit Types (argv : list string) (pdf_path output_dir : string) (w : World).

(** [sys.argv] when [len(sys.argv) == 3]. *)
Lemma argv_three argv pdf_path output_dir :
  length argv = 3%nat →
  argv !! 1%nat = Some pdf_path → argv !! 2%nat = Some output_dir →
  ∃ prog, argv = [prog; pdf_path; output_dir].
Proof.
  destruct argv as [| prog [| a [| b [| c argv]]]]; try discriminate.
  intros _ [= ->] [= ->]. by exists prog.
Qed.

(** The text printed for a failure. *)
Lemma dumps_failure_dict (error : string) :
  Json.dumps (Py.Dict (failure_dict error))
  = "{" +:+ Json.quote "success" +:+ ": false, "
        +:+ Json.quote "error" +:+ ": " +:+ Json.quote error +:+ "}".
Proof. reflexivity. Qed.

(** When both checks pass, the program prints the result of
    [pdf_to_images] and ends with status 0. *)
Lemma main_converts argv pdf_path output_dir w :
  length argv = 3%nat →
  argv !! 1%nat = Some pdf_path → argv !! 2%nat = Some output_dir →
  os_path_exists pdf_path w = true →
  ∃ d, result (pdf_to_images pdf_path output_dir w) = Return d
       ∧ main argv w
         = Process [Json.dumps (Py.Dict d)] 0
             (Some (pdf_to_images pdf_path output_dir w))
       ∧ ((∃ image_paths, d = success_dict image_paths
             ∧ quiet (trace (pdf_to_images pdf_path output_dir w)))
          ∨ (∃ msg, d = failure_dict msg
             ∧ aborted msg (trace (pdf_to_images pdf_path output_dir w)))).
Proof.
  intros Hlen H1 H2 Hexists.
  destruct (argv_three argv pdf_path output_dir Hlen H1 H2) as [prog ->].
  unfold main. rewrite Hexists. simpl.
  destruct (pdf_to_images_outcome pdf_path output_dir w)
    as [(ps & Hres & Hq) | (msg & Hres & Hab)]; rewrite Hres.
  - exists (success_dict ps). split_and!; [done | done |]. left. eauto.
  - exists (failure_dict msg). split_and!; [done | done |]. right. eauto.
Qed.

(** C3: when [sys.argv] has three entries and [pdf_path] exists, the
    program ends with status 0 after printing the one line
    [json.dumps(result)], whether the result is the success dictionary
    or the failure dictionary of an exception. *)
Theorem exit_status_zero_after_checks argv pdf_path output_dir w :
  length argv = 3%nat →
  argv !! 1%nat = Some pdf_path → argv !! 2%nat = Some output_dir →
  os_path_exists pdf_path w = true →
  exit_status (main argv w) = 0%Z
  ∧ ∃ d, result (pdf_to_images pdf_path output_dir w) = Return d
         ∧ stdout (main argv w) = [Json.dumps (Py.Dict d)]
         ∧ ((∃ image_paths, d = success_dict image_paths)
            ∨ (∃ msg, d = failure_dict msg
               ∧ aborted msg (trace (pdf_to_images pdf_path output_dir w)))).
Proof.
  intros Hlen H1 H2 Hexists.
  destruct (main_converts argv pdf_path output_dir w Hlen H1 H2 Hexists)
    as (d & Hres & -> & Hd).
  split; [done |]. exists d. split_and!; [done | done |].
  destruct Hd as [(ps & -> & _) | (msg & -> & Hab)]; eauto.
Qed.

(** C5: when [sys.argv] has three entries and [pdf_path] does not exist,
    the program prints the one line
    [{"success": false, "error": "PDF file not found: <pdf_path>"}],
    ends with status 1 and does not call [pdf_to_images]. *)
Theorem missing_pdf_exits_one argv pdf_path output_dir w :
  length argv = 3%nat →
  argv !! 1%nat = Some pdf_path → argv !! 2%nat = Some output_dir →
  os_path_exists pdf_path w = false →
  main argv w
  = Process
      [Json.dumps
         (Py.Dict [("success", Py.Bool false);
                   ("error", Py.Str ("PDF file not found: " +:+ pdf_path))])]
      1 None.
Proof.
  intros Hlen H1 H2 Hexists.
  destruct (argv_three argv pdf_path output_dir Hlen H1 H2) as [prog ->].
  unfold main. by rewrite Hexists.
Qed.

(** C6: when the number of positional arguments is not two, the program
    prints the one line [{"success": false, "error": <usage>}], ends
    with status 1 and does not call [pdf_to_images]. *)
Theorem wrong_argument_count_exits_one (prog : string) (args : list string) w :
  length args ≠ 2%nat →
  main (prog :: args) w
  = Process
      [Json.dumps
         (Py.Dict
            [("success", Py.Bool false);
             ("error",
              Py.Str "Usage: python pdf_to_images.py <pdf_path> <output_dir>")])]
      1 None.
Proof.
  intros Hlen. by destruct args as [| a [| b [| c args]]].
Qed.

(** C10: when [pdf_path] names something that is not a regular file,
    the existence check passes: [pdf_to_images] is called and the
    program ends with status 0 after printing its result, which is the
    failure dictionary of the exception whenever a call raised. *)
Theorem not_a_file_passes_the_check argv pdf_path output_dir w (nd : node) :
  length argv = 3%nat →
  argv !! 1%nat = Some pdf_path → argv !! 2%nat = Some output_dir →
  fs w !! pdf_path = Some nd → is_regular nd = false →
  os_path_exists pdf_path w = true
  ∧ exit_status (main argv w) = 0%Z
  ∧ conversion (main argv w) = Some (pdf_to_images pdf_path output_dir w)
  ∧ ∃ d, result (pdf_to_images pdf_path output_dir w) = Return d
         ∧ stdout (main argv w) = [Json.dumps (Py.Dict d)]
         ∧ (∀ ev msg,
              ev ∈ trace (pdf_to_images pdf_path output_dir w) →
              raised ev = Some msg →
              d = [("success", Py.Bool false); ("error", Py.Str msg)]).
Proof.
  intros Hlen H1 H2 Hnode _.
  assert (os_path_exists pdf_path w = true) as Hexists.
  { unfold os_path_exists. rewrite Hnode. by apply bool_decide_eq_true. }
  destruct (main_converts argv pdf_path output_dir w Hlen H1 H2 Hexists)
    as (d & Hres & -> & Hd).
  split_and!; [done | done | done |].
  exists d. split_and!; [done | done |].
  intros ev msg Hin Hev.
  destruct Hd as [(ps & -> & Hq) | (msg' & -> & Hab)].
  - by destruct (quiet_not_raised _ ev msg Hq).
  - by destruct (aborted_last _ ev msg' msg Hab Hin Hev) as [-> _].
Qed.

(** X8: the exit status is 0 or 1, and it is 0 exactly when
    [sys.argv] has three entries and the second names something that
    exists; whether the conversion succeeds plays no part. *)
Theorem exit_status_characterised argv w :
  (exit_status (main argv w) = 0%Z ∨ exit_status (main argv w) = 1%Z)
  ∧ (exit_status (main argv w) = 0%Z
     ↔ ∃ prog pdf_path output_dir,
         argv = [prog; pdf_path; output_dir]
         ∧ os_path_exists pdf_path w = true).
Proof.
  destruct argv as [| prog [| pdf_path [| output_dir [| extra argv]]]];
    try (split; [by right |];
         split; [discriminate | by intros (? & ? & ? & [=] & _)]).
  unfold main.
  destruct (os_path_exists pdf_path w) eqn:Hexists; simpl.
  - destruct (pdf_to_images_outcome pdf_path output_dir w)
      as [(ps & -> & _) | (msg & -> & _)]; simpl;
      (split; [by left |]); (split; [| done]); intros _;
      by exists prog, pdf_path, output_dir.
  - split; [by right |]. split; [discriminate |].
    intros (? & ? & ? & [= <- <- <-] & Hex). congruence.
Qed.

(** X9: every run of the program prints exactly one line, the JSON text
    of a dictionary whose [success] is a boolean; when it is [true] the
    line is the result of [pdf_to_images] and the exit status is 0. *)
Theorem one_line_printed argv w :
  ∃ (d : Py.dict) (b : bool),
    stdout (main argv w) = [Json.dumps (Py.Dict d)]
    ∧ Py.get "success" d = Some (Py.Bool b)
    ∧ (b = true →
       exit_status (main argv w) = 0%Z
       ∧ ∃ r, conversion (main argv w) = Some r ∧ result r = Return d).
Proof.
  destruct argv as [| prog [| pdf_path [| output_dir [| extra argv]]]];
    try (eexists _, false; split_and!; [reflexivity | reflexivity | done]).
  unfold main.
  destruct (os_path_exists pdf_path w); cbn [negb].
  - destruct (pdf_to_images_outcome pdf_path output_dir w)
      as [(ps & Hres & _) | (msg & Hres & _)]; rewrite Hres.
    + exists (success_dict ps), true.
      split_and!; [reflexivity | reflexivity |].
      intros _. split; [done |]. eexists. split; [reflexivity | done].
    + exists (failure_dict msg), false.
      split_and!; [reflexivity | reflexivity | done].
  - exists (failure_dict ("PDF file not found: " +:+ pdf_path)), false.
    split_and!; [reflexivity | reflexivity | done].
Qed.

End Program.

(** ** The small platform keeps the libraries' promises *)

Lemma sim_file_laws : FileLaws Sim.platform.
Proof.
  split; simpl.
  - intros d n w. unfold Sim.load_page.
    destruct (Sim.closed_doc d w); [done |].
    by destruct (Sim.doc_pages d !! n).
  - intros pg m w. unfold Sim.get_pixmap. by case_bool_decide.
  - intros d w. unfold Sim.close. by destruct (Sim.closed_doc d w).
  - intros pix p w w'. unfold Sim.save.
    destruct (Sim.files w !! p) as [[] |]; intros [= <-]; simpl;
      apply lookup_insert_eq.
  - intros pix p w p' Hne. unfold Sim.save.
    destruct (Sim.files w !! p) as [[] |]; simpl; try done;
      by apply lookup_insert_ne.
Qed.

Lemma sim_handle_laws : HandleLaws Sim.platform.
Proof.
  split; simpl.
  - intros p w d w'. unfold Sim.open.
    destruct (Sim.files w !! p) as [[data | |] |]; try discriminate.
    destruct (Sim.parse_pdf data); intros [= <- <-].
    unfold Sim.closed_doc. simpl. apply bool_decide_eq_false, is_fresh.
  - intros d d' n w. unfold Sim.load_page.
    destruct (Sim.closed_doc d' w); [done |].
    by destruct (Sim.doc_pages d' !! n).
  - intros d pg m w. unfold Sim.get_pixmap. by case_bool_decide.
  - intros d pix p w. unfold Sim.save.
    by destruct (Sim.files w !! p) as [[] |].
  - intros d w Hopen. unfold Sim.close. rewrite Hopen.
    eexists. split; [done |].
    unfold Sim.closed_doc. simpl. apply bool_decide_eq_true. set_solver.
Qed.

Lemma sim_prelude_laws : PreludeLaws Sim.platform.
Proof.
  split; simpl.
  - intros dir w p data Hfile. unfold Sim.makedirs.
    destruct (Sim.files w !! dir) as [[] |] eqn:Hdir; simpl; try done.
    + rewrite lookup_insert_ne; [done | congruence].
    + rewrite lookup_insert_ne; [done | congruence].
  - intros p w. unfold Sim.open.
    destruct (Sim.files w !! p) as [[data | |] |]; try done.
    by destruct (Sim.parse_pdf data).
Qed.

(** On the small platform a file has one path. *)
Lemma sim_resolved_laws : ResolvedLaws Sim.platform eq.
Proof.
  split.
  - apply sim_prelude_laws.
  - apply sim_prelude_laws.
  - apply sim_file_laws.
  - apply sim_file_laws.
  - apply sim_file_laws.
  - intros pix p w p' Hne. by apply sim_file_laws.
Qed.

(** ** The theorems at work on the small platform *)

Lemma pages_is_page_count_witness :
  ∃ (w1 : Sim.world) (doc : Sim.document) (w2 : Sim.world) (n : nat)
    (image_paths : list string),
    Sim.makedirs "out" Sim.disk = (Return (), w1)
    ∧ Sim.open "in/ok.pdf" w1 = (Return doc, w2)
    ∧ Sim.len doc w2 = Return n
    ∧ Py.get "pages" Sim.ok_result = Some (Py.Int (Z.of_nat n))
    ∧ Py.get "image_paths" Sim.ok_result
      = Some (Py.List (Py.Str <$> image_paths))
    ∧ length image_paths = n.
Proof.
  apply (pages_is_page_count (P := Sim.platform) "in/ok.pdf" "out" Sim.disk
           Sim.ok_result).
  - vm_compute. reflexivity.
  - vm_compute. reflexivity.
Defined.

Lemma image_paths_in_page_order_witness :
  ∃ (n : nat) (image_paths : list string),
    Py.get "pages" Sim.ok_result = Some (Py.Int (Z.of_nat n))
    ∧ Py.get "image_paths" Sim.ok_result
      = Some (Py.List (Py.Str <$> image_paths))
    ∧ length image_paths = n
    ∧ (∀ i : nat, (i < n)%nat →
         image_paths !! i
         = Some (Path.join "out" ("page-" +:+ pretty (i + 1)%nat +:+ ".png")))
    ∧ NoDup image_paths
    ∧ saved (trace Sim.run_ok) = image_paths.
Proof.
  apply (image_paths_in_page_order (P := Sim.platform) "in/ok.pdf" "out"
           Sim.disk Sim.ok_result).
  - vm_compute. reflexivity.
  - vm_compute. reflexivity.
Defined.

Lemma exception_aborts_witness :
  (∃ t0, trace Sim.run_bad = t0 ++ [Sim.failed_render] ∧ quiet t0)
  ∧ result Sim.run_bad
    = Return [("success", Py.Bool false);
              ("error", Py.Str "cannot render page")]
  ∧ (∀ (pix : Sim.pixmap) (p : string),
       EvSave (P := Sim.platform) pix p (Return ()) ∈ trace Sim.run_bad →
       Sim.files (final Sim.run_bad) !! p = Some (File (Sim.png pix)))
  ∧ (∀ d, result Sim.run_bad = Return d →
       Py.get "image_paths" d = None ∧ Py.get "pages" d = None).
Proof.
  apply (@exception_aborts Sim.platform sim_file_laws
           "in/bad.pdf" "out" Sim.disk Sim.failed_render
           "cannot render page").
  - apply (list_elem_of_lookup_2 _ 7%nat). reflexivity.
  - reflexivity.
Defined.

(** The first page of the document that fails on its second page is on
    disk after the run, and is not in the result. *)
Example first_page_left_on_disk :
  Sim.files (final Sim.run_bad) !! "out/page-1.png" = Some (File "PNGa2x2")
  ∧ Sim.files Sim.disk !! "out/page-1.png" = None
  ∧ result Sim.run_bad = Return (failure_dict "cannot render page").
Proof. vm_compute. done. Qed.

Lemma close_only_on_success_witness :
  (∃ doc t0,
     trace Sim.run_ok = t0 ++ [EvClose doc (Return ())]
     ∧ EvOpen "in/ok.pdf" (Return doc) ∈ t0
     ∧ close_count t0 = 0%nat
     ∧ saved t0 = ["out/page-1.png"; "out/page-2.png"; "out/page-3.png"]
     ∧ close_count (trace Sim.run_ok) = 1%nat
     ∧ Sim.closed_doc doc (final Sim.run_ok) = true)
  ∧ close_count (trace Sim.run_bad) = 0%nat
  ∧ Sim.closed_doc (Sim.MkDocument 0 ["a"; "!"; "c"]%char) (final Sim.run_bad)
    = false.
Proof.
  split.
  - apply (proj1 (@close_only_on_success Sim.platform sim_handle_laws
                    "in/ok.pdf" "out" Sim.disk)
             ["out/page-1.png"; "out/page-2.png"; "out/page-3.png"]).
    vm_compute. reflexivity.
  - apply (proj2 (@close_only_on_success Sim.platform sim_handle_laws
                    "in/bad.pdf" "out" Sim.disk)
             "cannot render page" (Sim.MkDocument 0 ["a"; "!"; "c"]%char)).
    + vm_compute. reflexivity.
    + apply (list_elem_of_lookup_2 _ 1%nat). reflexivity.
Defined.

Lemma exit_status_zero_after_checks_witness :
  exit_status
    (main (P := Sim.platform) ["pdf_to_images.py"; "in/bad.pdf"; "out"]
       Sim.disk) = 0%Z
  ∧ ∃ d, result Sim.run_bad = Return d
         ∧ stdout
             (main (P := Sim.platform)
                ["pdf_to_images.py"; "in/bad.pdf"; "out"] Sim.disk)
           = [Json.dumps (Py.Dict d)]
         ∧ ((∃ image_paths, d = success_dict image_paths)
            ∨ (∃ msg, d = failure_dict msg
               ∧ aborted msg (trace Sim.run_bad))).
Proof.
  apply (exit_status_zero_after_checks (P := Sim.platform)
           ["pdf_to_images.py"; "in/bad.pdf"; "out"] "in/bad.pdf" "out"
           Sim.disk); reflexivity.
Defined.

Lemma missing_pdf_exits_one_witness :
  main (P := Sim.platform) ["pdf_to_images.py"; "in/none.pdf"; "out"] Sim.disk
  = Process
      [Json.dumps
         (Py.Dict [("success", Py.Bool false);
                   ("error", Py.Str "PDF file not found: in/none.pdf")])]
      1 None.
Proof.
  apply (missing_pdf_exits_one (P := Sim.platform)
           ["pdf_to_images.py"; "in/none.pdf"; "out"] "in/none.pdf" "out"
           Sim.disk); reflexivity.
Defined.

Lemma wrong_argument_count_exits_one_witness :
  main (P := Sim.platform) ["pdf_to_images.py"; "in/ok.pdf"] Sim.disk
  = Process
      [Json.dumps
         (Py.Dict
            [("success", Py.Bool false);
             ("error",
              Py.Str "Usage: python pdf_to_images.py <pdf_path> <output_dir>")])]
      1 None.
Proof.
  apply (wrong_argument_count_exits_one (P := Sim.platform)
           "pdf_to_images.py" ["in/ok.pdf"] Sim.disk).
  simpl. lia.
Defined.

Lemma not_a_file_passes_the_check_witness :
  os_path_exists (P := Sim.platform) "in" Sim.disk = true
  ∧ exit_status
      (main (P := Sim.platform) ["pdf_to_images.py"; "in"; "out"] Sim.disk)
    = 0%Z
  ∧ conversion
      (main (P := Sim.platform) ["pdf_to_images.py"; "in"; "out"] Sim.disk)
    = Some (pdf_to_images (P := Sim.platform) "in" "out" Sim.disk)
  ∧ ∃ d, result (pdf_to_images (P := Sim.platform) "in" "out" Sim.disk)
         = Return d
         ∧ stdout
             (main (P := Sim.platform) ["pdf_to_images.py"; "in"; "out"]
                Sim.disk)
           = [Json.dumps (Py.Dict d)]
         ∧ (∀ ev msg,
              ev ∈ trace (pdf_to_images (P := Sim.platform) "in" "out" Sim.disk) →
              raised ev = Some msg →
              d = [("success", Py.Bool false); ("error", Py.Str msg)]).
Proof.
  apply (not_a_file_passes_the_check (P := Sim.platform)
           ["pdf_to_images.py"; "in"; "out"] "in" "out" Sim.disk Dir);
    reflexivity.
Defined.

(** What the program prints for a directory given as the PDF, and for a
    document that converts. *)
Example directory_as_pdf :
  stdout (main (P := Sim.platform) ["pdf_to_images.py"; "in"; "out"] Sim.disk)
  = [Json.dumps (Py.Dict (failure_dict "'in' is no file"))]
  ∧ exit_status
      (main (P := Sim.platform) ["pdf_to_images.py"; "in"; "out"] Sim.disk)
    = 0%Z.
Proof. vm_compute. done. Qed.

Example three_pages_converted :
  result Sim.run_ok = Return Sim.ok_result
  ∧ stdout (main (P := Sim.platform) ["pdf_to_images.py"; "in/ok.pdf"; "out"]
              Sim.disk)
    = [Json.dumps (Py.Dict Sim.ok_result)]
  ∧ exit_status
      (main (P := Sim.platform) ["pdf_to_images.py"; "in/ok.pdf"; "out"]
         Sim.disk) = 0%Z.
Proof. vm_compute. done. Qed.

Lemma failure_only_after_exception_witness :
  (Py.get "success" (failure_dict "cannot render page")
   = Some (Py.Bool false) →
   ∃ t0 ev msg,
     trace Sim.run_bad = t0 ++ [ev]
     ∧ quiet t0 ∧ raised ev = Some msg
     ∧ Py.get "error" (failure_dict "cannot render page")
       = Some (Py.Str msg))
  ∧ (Py.get "success" (failure_dict "cannot render page")
     = Some (Py.Bool true) →
     quiet (trace Sim.run_bad)).
Proof.
  apply (failure_only_after_exception (P := Sim.platform)
           "in/bad.pdf" "out" Sim.disk (failure_dict "cannot render page")).
  reflexivity.
Defined.

Lemma pages_processed_in_order_witness :
  ∃ j : nat,
    saved (trace Sim.run_bad) = image_path_of "out" <$> seq 0 j
    ∧ ((j = 3%nat
        ∧ loaded (trace Sim.run_bad)
          = pair (Sim.MkDocument 0 ["a"; "!"; "c"]%char) <$> seq 0 3)
       ∨ ((j < 3)%nat
          ∧ loaded (trace Sim.run_bad)
            = pair (Sim.MkDocument 0 ["a"; "!"; "c"]%char) <$> seq 0 (S j)
          ∧ ∃ msg, result Sim.run_bad = Return (failure_dict msg))).
Proof.
  apply (pages_processed_in_order (P := Sim.platform)
           "in/bad.pdf" "out" Sim.disk
           (Sim.makedirs "out" Sim.disk).2 (Sim.makedirs "out" Sim.disk).2
           (Sim.MkDocument 0 ["a"; "!"; "c"]%char) 3%nat); reflexivity.
Defined.

Lemma empty_document_succeeds_witness :
  result Sim.run_empty
  = Return [("success", Py.Bool true); ("pages", Py.Int 0);
            ("image_paths", Py.List [])]
  ∧ trace Sim.run_empty
    = [EvMakedirs (P := Sim.platform) "out" (Return ());
       EvOpen (P := Sim.platform) "in/empty.pdf"
         (Return (Sim.MkDocument 0 []));
       EvLen (P := Sim.platform) (Sim.MkDocument 0 []) (Return 0%nat);
       EvClose (P := Sim.platform) (Sim.MkDocument 0 []) (Return ())]
  ∧ saved (trace Sim.run_empty) = [].
Proof.
  apply (@empty_document_succeeds Sim.platform sim_handle_laws
           "in/empty.pdf" "out" Sim.disk_empty
           (Sim.makedirs "out" Sim.disk_empty).2
           (Sim.makedirs "out" Sim.disk_empty).2
           (Sim.MkDocument 0 [])); reflexivity.
Defined.

Lemma other_files_untouched_witness :
  Sim.files (final Sim.run_ok) !! "in/ok.pdf" = Some (File "%PDFabc").
Proof.
  apply (@other_files_untouched Sim.platform eq sim_resolved_laws
           "in/ok.pdf" "out" Sim.disk "in/ok.pdf" "%PDFabc").
  - reflexivity.
  - intros i Heq.
    apply (f_equal (String.get 0)) in Heq. discriminate Heq.
Defined.


Lemma paths_depend_on_page_count_witness :
  ["out/page-1.png"; "out/page-2.png"]
    `prefix_of` ["out/page-1.png"; "out/page-2.png"; "out/page-3.png"]
  ∧ (length ["out/page-1.png"; "out/page-2.png"]
     = length ["out/page-1.png"; "out/page-2.png"; "out/page-3.png"] →
     ["out/page-1.png"; "out/page-2.png"]
     = ["out/page-1.png"; "out/page-2.png"; "out/page-3.png"]).
Proof.
  apply (paths_depend_on_page_count (P := Sim.platform)
           "in/two.pdf" "in/ok.pdf" "out" Sim.disk_two Sim.disk).
  - vm_compute. reflexivity.
  - vm_compute. reflexivity.
  - simpl. lia.
Defined.

Lemma fixed_scale_witness :
  loaded (trace Sim.run_ok)
  = pair (Sim.MkDocument 0 ["a"; "b"; "c"]%char) <$> seq 0 3
  ∧ length (pages_returned (trace Sim.run_ok)) = 3%nat
  ∧ transforms (trace Sim.run_ok)
    = replicate 3 {| m_a := 2; m_b := 0; m_c := 0;
                     m_d := 2; m_e := 0; m_f := 0 |}
  ∧ length ["out/page-1.png"; "out/page-2.png"; "out/page-3.png"] = 3%nat.
Proof.
  apply (proj2 (proj2 (fixed_scale (P := Sim.platform)
                         "in/ok.pdf" "out" Sim.disk))
           (Sim.makedirs "out" Sim.disk).2 (Sim.makedirs "out" Sim.disk).2
           (Sim.MkDocument 0 ["a"; "b"; "c"]%char) 3%nat
           ["out/page-1.png"; "out/page-2.png"; "out/page-3.png"]).
  - reflexivity.
  - reflexivity.
  - reflexivity.
  - vm_compute. reflexivity.
Defined.

(** The three pages of the document, each rendered with the scaling by
    2 and 2. *)
Example three_pages_rendered :
  rendered (trace Sim.run_ok)
  = [("a"%char, fitz_Matrix 2 2); ("b"%char, fitz_Matrix 2 2);
     ("c"%char, fitz_Matrix 2 2)].
Proof. reflexivity. Qed.
